(** * Cubefile: a shallow embedding of [Cubefile/Cubefile.py]

    The Python class [Cubefile] parses Gaussian cube files into a record of
    numpy arrays.  This development embeds the class as Rocq functions and
    proves properties of the parser.

    - numpy [float64] values are Rocq's primitive binary64 floats;
    - Python [str] values are [string]s (characters with code below 256);
    - one-dimensional arrays are lists of floats, [voxel_shape] is a list of
      rows, and the voxel grid is a shape together with its C-ordered buffer;
    - the mutable object and the line iterator are threaded through a small
      state-and-exception monad; an exception leaves the mutations made so
      far in place, as in Python;
    - the builtins [int], [float], numpy's string-to-float64 conversion and
      numpy's allocation limit are not part of the repository: they are the
      fields of the class [Runtime]. *)

From Stdlib Require Import ZArith Lia Bool Ascii String Floats DecimalString.
From stdpp Require Import base list strings.

Local Open Scope string_scope.
Local Open Scope Z_scope.

#[local] Set Warnings "-inexact-float,-register-all".

(** ** Python values and exceptions *)

(** The values a caller may pass as [data_source]. *)
Inductive pyval :=
| VNone
| VStr (s : string)
| VInt (n : Z)
| VFloat (x : float)
| VList (lines : list string).

Inductive exn_kind := StopIteration | IndexError | TypeError | ValueError.

(** An exception: its class, its [args] and its [__context__]. *)
Inductive exn := Exn (kind : exn_kind) (args : list pyval) (context : option exn).

Definition exn_kind_of (e : exn) : exn_kind := let 'Exn k _ _ := e in k.
Definition exn_args (e : exn) : list pyval := let 'Exn _ a _ := e in a.
Definition exn_context (e : exn) : option exn := let 'Exn _ _ c := e in c.

Inductive result (A : Type) :=
| Ok (a : A)
| Raise (e : exn).
Arguments Ok {A} a.
Arguments Raise {A} e.

Definition is_ok {A} (r : result A) : bool :=
  match r with Ok _ => true | Raise _ => false end.

Definition rbind {A B} (r : result A) (k : A -> result B) : result B :=
  match r with Ok a => k a | Raise e => Raise e end.

(** [list(map(f, xs))]: the first failing element raises. *)
Fixpoint map_result {A B} (f : A -> result B) (xs : list A) : result (list B) :=
  match xs with
  | [] => Ok []
  | x :: xs' =>
      rbind (f x) (fun y => rbind (map_result f xs') (fun ys => Ok (y :: ys)))
  end.

(** ** The builtins the module relies on *)

Class Runtime := {
  (** [int(token)] *)
  py_int : string -> result Z;
  (** [float(token)] *)
  py_float : string -> result float;
  (** conversion of one [str] element by [numpy.asarray(..., dtype=float64)] *)
  np_float : string -> result float;
  (** [numpy.zeros(shape)] refuses shapes it cannot allocate *)
  np_alloc : list Z -> option exn
}.

(** ** Strings: [str.split], [re.findall(r"\S+", _)], [str.splitlines] *)

(** [str.isspace] on one character. *)
Definition isspace (c : ascii) : bool :=
  let n := nat_of_ascii c in
  ((9 <=? n) && (n <=? 13) || (28 <=? n) && (n <=? 32)
   || (n =? 133) || (n =? 160))%nat.

Definition flush (cur : string) : list string :=
  match cur with EmptyString => [] | _ => [cur] end.

Fixpoint tokens_from (cur : string) (s : string) : list string :=
  match s with
  | EmptyString => flush cur
  | String c s' =>
      if isspace c then flush cur ++ tokens_from "" s'
      else tokens_from (cur +:+ String c "") s'
  end.

(** [s.split()] and [re.findall(r"\S+", s)]: the maximal runs of
    non-whitespace characters, in order. *)
Definition py_split (s : string) : list string := tokens_from "" s.

(** The line boundaries of [str.splitlines]. *)
Definition is_linebreak (c : ascii) : bool :=
  let n := nat_of_ascii c in
  ((10 <=? n) && (n <=? 13) || (28 <=? n) && (n <=? 30) || (n =? 133))%nat.

Fixpoint splitlines_from (cur : string) (s : string) : list string :=
  match s with
  | EmptyString => flush cur
  | String c s' =>
      if is_linebreak c then
        cur :: match s' with
               | String c' s'' =>
                   if ((nat_of_ascii c =? 13) && (nat_of_ascii c' =? 10))%nat
                   then splitlines_from "" s''
                   else splitlines_from "" s'
               | EmptyString => splitlines_from "" s'
               end
      else splitlines_from (cur +:+ String c "") s'
  end.

(** [s.splitlines()]: line breaks are dropped. *)
Definition splitlines (s : string) : list string := splitlines_from "" s.

(** [''.join(lines)] *)
Definition join_empty (lines : list string) : string :=
  foldr String.append "" lines.

(** ** Lists: indexing and slicing *)

(** [l[i]] for [0 <= i]. *)
Definition getitem {A} (l : list A) (i : nat) : result A :=
  match l !! i with
  | Some x => Ok x
  | None => Raise (Exn IndexError [VStr "list index out of range"] None)
  end.

(** [l[i:j]] for [0 <= i <= j]: never raises. *)
Definition slice {A} (l : list A) (i j : nat) : list A := take (j - i) (drop i l).

(** [l[i] = x] on a list or a one-dimensional array. *)
Definition setitem {A} (l : list A) (i : nat) (x : A) : result (list A) :=
  if (i <? length l)%nat then Ok (<[i := x]> l)
  else Raise (Exn IndexError [VStr "index out of range"] None).

(** ** numpy *)

Definition float_type := float.

Definition BOHR_TO_ANGSTROM : float := (5.29177210903 / 10.0)%float.

(** An n-dimensional array: its shape and its elements in C order. *)
Record ndarray := { shape : list Z; data : list float }.

Definition product (dims : list Z) : Z := foldr Z.mul 1 dims.

(** [a.size] *)
Definition size (a : ndarray) : Z := product (shape a).

Definition broadcast_error : exn :=
  Exn ValueError [VStr "operands could not be broadcast together"] None.

(** [numpy.multiply(a, b)] on one-dimensional arrays, with broadcasting. *)
Definition np_multiply (a b : list float) : result (list float) :=
  if (length a =? length b)%nat then Ok (zip_with PrimFloat.mul a b)
  else match a, b with
       | [x], _ => Ok (map (PrimFloat.mul x) b)
       | _, [y] => Ok (map (fun x => PrimFloat.mul x y) a)
       | _, _ => Raise broadcast_error
       end.

(** [numpy.multiply(a, b)] on two-dimensional arrays of equal shape. *)
Definition np_multiply2 (a b : list (list float)) : result (list (list float)) :=
  if bool_decide (map length a = map length b)
  then Ok (zip_with (zip_with PrimFloat.mul) a b)
  else Raise broadcast_error.

(** Truth value of an array element: non-zero, NaN included. *)
Definition nonzero (x : float) : bool := negb (PrimFloat.eqb x 0%float).

(** [a.any()] on a two-dimensional array. *)
Definition np_any2 (a : list (list float)) : bool := existsb (existsb nonzero) a.

(** [numpy.identity(3, dtype=float_type)] *)
Definition np_identity3 : list (list float) :=
  [[1; 0; 0]; [0; 1; 0]; [0; 0; 1]]%float.

(** [numpy.linalg.norm(m, axis=1)] *)
Definition np_norm_rows (m : list (list float)) : list float :=
  map (fun row =>
         PrimFloat.sqrt
           (fold_left PrimFloat.add (map (fun x => PrimFloat.mul x x) row) 0%float))
      m.

(** [numpy.asarray(tokens, dtype=float_type)] on a list of [str]. *)
Definition np_asarray `{RT : Runtime} (toks : list string) : result (list float) :=
  map_result np_float toks.

(** [a[i] = row] for a two-dimensional [a]: [row] is broadcast to the width
    of the array. *)
Definition setrow (a : list (list float)) (i : nat) (row : list float)
  : result (list (list float)) :=
  match a !! i with
  | None => Raise (Exn IndexError [VStr "index out of range"] None)
  | Some old =>
      if (length row =? length old)%nat then Ok (<[i := row]> a)
      else match row with
           | [x] => Ok (<[i := replicate (length old) x]> a)
           | _ => Raise (Exn ValueError [VStr "could not broadcast input array"] None)
           end
  end.

(** What [a[i] = row] stores when the rows of [a] have three entries. *)
Definition broadcast3 (row : list float) : list float :=
  match row with
  | [x] => [x; x; x]
  | _ => row
  end.

(** [numpy.zeros(dims, dtype=float_type)] *)
Definition np_zeros `{RT : Runtime} (dims : list Z) : result ndarray :=
  match np_alloc dims with
  | Some e => Raise e
  | None =>
      if forallb (Z.leb 0) dims
      then Ok {| shape := dims; data := replicate (Z.to_nat (product dims)) 0%float |}
      else Raise (Exn ValueError [VStr "negative dimensions are not allowed"] None)
  end.

(** [flat.reshape(dims)] on a one-dimensional array, where [dims] is the
    shape of an existing array: the buffer is kept, in C order. *)
Definition np_reshape (flat : list float) (dims : list Z) : result ndarray :=
  if Z.of_nat (length flat) =? product dims
  then Ok {| shape := dims; data := flat |}
  else Raise (Exn ValueError [VStr "cannot reshape array"] None).

(** [a[i, j, k]] of a three-dimensional array, for in-range indices. *)
Definition item3 (a : ndarray) (i j k : Z) : option float :=
  match shape a with
  | [_; ny; nz] => data a !! Z.to_nat (i * (ny * nz) + j * nz + k)
  | _ => None
  end.

(** [numpy.maximum] on two elements: NaN propagates. *)
Definition np_maximum (x y : float) : float :=
  if PrimFloat.is_nan x then x
  else if PrimFloat.is_nan y then y
  else if PrimFloat.ltb x y then y else x.

(** [numpy.abs(a).max()] *)
Definition np_abs_max (a : ndarray) : result float :=
  match map PrimFloat.abs (data a) with
  | [] => Raise (Exn ValueError
                   [VStr "zero-size array to reduction operation maximum which has no identity"]
                   None)
  | x :: xs => Ok (fold_left np_maximum xs x)
  end.

(** ** The class [Cubefile] *)

(** One entry of [atoms]: the dict with keys "element", "charge", "xyz". *)
Record Atom := { element : Z; charge : float; xyz : list float }.

Record Cubefile := {
  filename : option pyval;
  header : string;
  origin : list float;
  voxel_shape : list (list float);
  unit_conversion : list float;
  scale : list float;
  atoms : list Atom;
  voxels : ndarray
}.

(** [reset]: every attribute is given its initial value. *)
Definition reset (self : Cubefile) : Cubefile :=
  {| filename := None;
     header := "";
     origin := replicate 3 0%float;
     voxel_shape := replicate 3 (replicate 3 1%float);
     unit_conversion := replicate 3 1%float;
     scale := [1; 1; 1]%float;
     atoms := [];
     voxels := {| shape := [0]; data := [] |} |}.

(** The state of a new object before [__init__] runs [reset]; no attribute
    of it is ever read. *)
Definition blank : Cubefile :=
  {| filename := None; header := ""; origin := []; voxel_shape := [];
     unit_conversion := []; scale := []; atoms := [];
     voxels := {| shape := []; data := [] |} |}.

Definition default_state : Cubefile := reset blank.

(** *** Properties *)

Definition voxel_count (self : Cubefile) : list Z := shape (voxels self).
Definition voxel_total (self : Cubefile) : Z := size (voxels self).
Definition atom_count (self : Cubefile) : nat := length (atoms self).
Definition max_voxel_val (self : Cubefile) : result float := np_abs_max (voxels self).

(** ** The state-and-exception monad of a method body *)

(** The object under construction and what is left of the iterator. *)
Record pstate := { obj : Cubefile; it : list string }.

Definition M (A : Type) : Type := pstate -> result A * pstate.

Definition ret {A} (a : A) : M A := fun s => (Ok a, s).

Definition bind {A B} (m : M A) (k : A -> M B) : M B :=
  fun s => match m s with
           | (Ok a, s') => k a s'
           | (Raise e, s') => (Raise e, s')
           end.

Definition raise {A} (e : exn) : M A := fun s => (Raise e, s).

Definition lift {A} (r : result A) : M A := fun s => (r, s).

Definition get_self : M Cubefile := fun s => (Ok (obj s), s).

Definition modify (f : Cubefile -> Cubefile) : M unit :=
  fun s => (Ok tt, {| obj := f (obj s); it := it s |}).

Declare Scope cube_scope.
Delimit Scope cube_scope with cube.
Notation "x <- m ;; k" := (bind m (fun x => k))
  (at level 100, m at next level, right associativity) : cube_scope.
Notation "m ;; k" := (bind m (fun _ => k))
  (at level 100, right associativity) : cube_scope.
Local Open Scope cube_scope.

(** [next(iterator)] *)
Definition next : M string :=
  fun s => match it s with
           | [] => (Raise (Exn StopIteration [] None), s)
           | line :: rest => (Ok line, {| obj := obj s; it := rest |})
           end.

(** [''.join(iterator)]: the iterator is exhausted. *)
Definition join_rest : M string :=
  fun s => (Ok (join_empty (it s)), {| obj := obj s; it := [] |}).

(** Attribute assignments. *)
Definition with_filename (v : option pyval) (c : Cubefile) : Cubefile :=
  {| filename := v; header := header c; origin := origin c;
     voxel_shape := voxel_shape c; unit_conversion := unit_conversion c;
     scale := scale c; atoms := atoms c; voxels := voxels c |}.
Definition with_header (v : string) (c : Cubefile) : Cubefile :=
  {| filename := filename c; header := v; origin := origin c;
     voxel_shape := voxel_shape c; unit_conversion := unit_conversion c;
     scale := scale c; atoms := atoms c; voxels := voxels c |}.
Definition with_origin (v : list float) (c : Cubefile) : Cubefile :=
  {| filename := filename c; header := header c; origin := v;
     voxel_shape := voxel_shape c; unit_conversion := unit_conversion c;
     scale := scale c; atoms := atoms c; voxels := voxels c |}.
Definition with_voxel_shape (v : list (list float)) (c : Cubefile) : Cubefile :=
  {| filename := filename c; header := header c; origin := origin c;
     voxel_shape := v; unit_conversion := unit_conversion c;
     scale := scale c; atoms := atoms c; voxels := voxels c |}.
Definition with_unit_conversion (v : list float) (c : Cubefile) : Cubefile :=
  {| filename := filename c; header := header c; origin := origin c;
     voxel_shape := voxel_shape c; unit_conversion := v;
     scale := scale c; atoms := atoms c; voxels := voxels c |}.
Definition with_scale (v : list float) (c : Cubefile) : Cubefile :=
  {| filename := filename c; header := header c; origin := origin c;
     voxel_shape := voxel_shape c; unit_conversion := unit_conversion c;
     scale := v; atoms := atoms c; voxels := voxels c |}.
Definition with_atoms (v : list Atom) (c : Cubefile) : Cubefile :=
  {| filename := filename c; header := header c; origin := origin c;
     voxel_shape := voxel_shape c; unit_conversion := unit_conversion c;
     scale := scale c; atoms := v; voxels := voxels c |}.
Definition with_voxels (v : ndarray) (c : Cubefile) : Cubefile :=
  {| filename := filename c; header := header c; origin := origin c;
     voxel_shape := voxel_shape c; unit_conversion := unit_conversion c;
     scale := scale c; atoms := atoms c; voxels := v |}.

(** ** [read_iterator] *)

Section Parser.
Context `{RT : Runtime}.

(** Lines 1-2: [self.header = next(iterator) + next(iterator)]. *)
Definition read_header : M unit :=
  l1 <- next ;;
  l2 <- next ;;
  modify (with_header (l1 +:+ l2)).

(** [int(split_line[0])] *)
Definition first_int (split_line : list string) : result Z :=
  rbind (getitem split_line 0) py_int.

(** Line 3: the atom count and the origin, not yet converted. *)
Definition read_origin : M Z :=
  line <- next ;;
  let split_line := py_split line in
  atom_count <- lift (first_int split_line) ;;
  o <- lift (map_result py_float (slice split_line 1 4)) ;;
  modify (with_origin o) ;;
  ret atom_count.

(** One round of the loop over lines 4-6. *)
Definition read_axis (voxel_count : list Z) (i : nat) : M (list Z) :=
  line <- next ;;
  let split_line := py_split line in
  n <- lift (first_int split_line) ;;
  voxel_count <- lift (setitem voxel_count i n) ;;
  voxel_count <-
    (if n <? 0 then
       voxel_count <- lift (setitem voxel_count i (- n)) ;;
       self <- get_self ;;
       uc <- lift (setitem (unit_conversion self) i 1%float) ;;
       modify (with_unit_conversion uc) ;;
       ret voxel_count
     else
       self <- get_self ;;
       uc <- lift (setitem (unit_conversion self) i BOHR_TO_ANGSTROM) ;;
       modify (with_unit_conversion uc) ;;
       ret voxel_count) ;;
  row <- lift (np_asarray (slice split_line 1 4)) ;;
  self <- get_self ;;
  vs <- lift (setrow (voxel_shape self) i row) ;;
  modify (with_voxel_shape vs) ;;
  ret voxel_count.

(** [for i in range(0, 3)] *)
Fixpoint read_axes (voxel_count : list Z) (range : list nat) : M (list Z) :=
  match range with
  | [] => ret voxel_count
  | i :: range' =>
      voxel_count <- read_axis voxel_count i ;;
      read_axes voxel_count range'
  end.

(** The test for non-square voxels: the voxel shape is multiplied by
    [1.0 - identity] and any non-zero product raises. *)
Definition non_square (vs : list (list float)) : result bool :=
  rbind (np_multiply2 vs (map (map (fun x => (1.0 - x)%float)) np_identity3))
        (fun m => Ok (np_any2 m)).

Definition check_square : M unit :=
  self <- get_self ;;
  b <- lift (non_square (voxel_shape self)) ;;
  if b then raise (Exn ValueError [VStr "Non square voxel shape."] None)
  else ret tt.

(** Conversion of the origin, allocation of the grid, and the scale. *)
Definition setup_grid (voxel_count : list Z) : M unit :=
  self <- get_self ;;
  o <- lift (np_multiply (origin self) (unit_conversion self)) ;;
  modify (with_origin o) ;;
  v <- lift (np_zeros voxel_count) ;;
  modify (with_voxels v) ;;
  self <- get_self ;;
  sc <- lift (np_multiply (np_norm_rows (voxel_shape self)) (unit_conversion self)) ;;
  modify (with_scale sc).

(** The dict built from one atom line, given [self.unit_conversion]. *)
Definition atom_of_line (uc : list float) (line : string) : result Atom :=
  let split_line := py_split line in
  rbind (first_int split_line) (fun el =>
  rbind (getitem split_line 1) (fun tok =>
  rbind (py_float tok) (fun ch =>
  rbind (np_asarray (slice split_line 2 5)) (fun raw =>
  rbind (np_multiply raw uc) (fun pos =>
  Ok {| element := el; charge := ch; xyz := pos |}))))).

(** One round of the loop over the atom lines: [self.atoms.append(...)]. *)
Definition read_atom : M unit :=
  line <- next ;;
  self <- get_self ;;
  atom <- lift (atom_of_line (unit_conversion self) line) ;;
  modify (fun c => with_atoms (atoms c ++ [atom]) c).

(** [for _ in range(atom_count)], by the number of rounds left. *)
Fixpoint read_atoms (rounds : nat) : M unit :=
  match rounds with
  | O => ret tt
  | S rounds' => read_atom ;; read_atoms rounds'
  end.

(** The remaining lines: joined, tokenised, converted and reshaped. *)
Definition read_voxels (voxel_count : list Z) : M unit :=
  text <- join_rest ;;
  flat <- lift (np_asarray (py_split text)) ;;
  self <- get_self ;;
  v <- lift (np_reshape flat (shape (voxels self))) ;;
  modify (with_voxels v) ;;
  self <- get_self ;;
  if bool_decide (shape (voxels self) = voxel_count) then ret tt
  else raise (Exn ValueError [VStr "Could not read the correct number of voxels"] None).

(** The body of the [try] block. *)
Definition read_body : M unit :=
  read_header ;;
  atom_count <- read_origin ;;
  voxel_count <- read_axes [0; 0; 0] (seq 0 3) ;;
  check_square ;;
  setup_grid voxel_count ;;
  read_atoms (Z.to_nat atom_count) ;;
  read_voxels voxel_count.

(** The exception raised by the [except] clause for the caught [e]:
    [ValueError("Error reading file", *e.args)], with [e] as context. *)
Definition reading_error (e : exn) : exn :=
  Exn ValueError (VStr "Error reading file" :: exn_args e) (Some e).

(** [self.read_iterator(iterator)]: the outcome and the object afterwards. *)
Definition read_iterator (self : Cubefile) (iterator : list string)
  : result unit * Cubefile :=
  match read_body {| obj := self; it := iterator |} with
  | (Ok _, s) => (Ok tt, obj s)
  | (Raise e, s) => (Raise (reading_error e), reset (obj s))
  end.

(** ** [read] and [__init__] *)

(** The file system as [read] sees it: [fs src] is [Some lines] when
    [os.path.isfile(src)] holds and [open(src, "rt")] succeeds, [lines]
    being the lines the file object yields (each with its line ending);
    it is [None] when either call answers no or raises. *)
Variable fs : pyval -> option (list string).

(** [iter(data_source)] *)
Definition py_iter (src : pyval) : result (list string) :=
  match src with
  | VList lines => Ok lines
  | VStr s => Ok (map (fun c => String c "") (list_ascii_of_string s))
  | _ => Raise (Exn TypeError [VStr "object is not iterable"] None)
  end.

Definition could_not_read (src : pyval) : exn :=
  Exn ValueError [VStr "Could not read"; src] None.

(** The part of [read] after the attempt to open a file. *)
Definition read_other (self : Cubefile) (data_source : pyval)
  : result unit * Cubefile :=
  match data_source with
  | VStr s => read_iterator self (splitlines s)
  | _ =>
      match py_iter data_source with
      | Raise _ => (Raise (could_not_read data_source), self)
      | Ok lines =>
          match read_iterator self lines with
          | (Ok r, self') => (Ok r, self')
          | (Raise _, self') => (Raise (could_not_read data_source), self')
          end
      end
  end.

(** [self.read(data_source)] *)
Definition read (self : Cubefile) (data_source : pyval)
  : result unit * Cubefile :=
  match fs data_source with
  | Some lines =>
      match read_iterator (with_filename (Some data_source) self) lines with
      | (Ok r, self') => (Ok r, self')
      | (Raise _, self') => read_other self' data_source
      end
  | None => read_other self data_source
  end.

(** Truth value of a Python object. *)
Definition truthy (v : pyval) : bool :=
  match v with
  | VNone => false
  | VStr s => negb (bool_decide (s = ""))
  | VInt n => negb (n =? 0)
  | VFloat x => nonzero x
  | VList l => negb (bool_decide (l = []))
  end.

(** [Cubefile(data_source)] *)
Definition init (data_source : pyval) : result unit * Cubefile :=
  let self := reset blank in
  if truthy data_source then read self data_source else (Ok tt, self).

End Parser.

(** ** [__str__] and [__repr__] *)

(** [str(n)] for an [int]. *)
Definition str_int (n : Z) : string := NilEmpty.string_of_int (Z.to_int n).

(** [sep.join(parts)] *)
Fixpoint py_join (sep : string) (parts : list string) : string :=
  match parts with
  | [] => ""
  | [part] => part
  | part :: parts' => part +:+ sep +:+ py_join sep parts'
  end.

(** The multiplication sign, U+00D7. *)
Definition times : string := String (ascii_of_nat 215) "".

Section Describe.

(** [str(v)], by which the f-string formats [self.filename]. *)
Variable py_str : pyval -> string.

(** The truth value of [self.filename]. *)
Definition has_filename (self : Cubefile) : bool :=
  match filename self with
  | Some v => truthy v
  | None => false
  end.

Definition __str__ (self : Cubefile) : string :=
  let dims := py_join times (map str_int (shape (voxels self))) in
  if has_filename self then
    "Cubefile.Cubefile with " +:+ dims +:+ " voxels, loaded from "
      +:+ match filename self with Some v => py_str v | None => "None" end +:+ "."
  else "Cubefile.Cubefile with " +:+ dims +:+ " voxels.".

Definition __repr__ (self : Cubefile) : string := __str__ self.

End Describe.

(** ** A reference runtime

    Concrete builtins for running the parser: they agree with CPython and
    numpy on the plain decimal literals they accept and raise [ValueError]
    on every other token. *)

Module PyRef.

Definition digit_of (c : ascii) : option Z :=
  let n := nat_of_ascii c in
  if ((48 <=? n) && (n <=? 57))%nat then Some (Z.of_nat (n - 48)) else None.

Fixpoint digits_value (acc : Z) (s : string) : option Z :=
  match s with
  | EmptyString => Some acc
  | String c s' =>
      match digit_of c with
      | Some d => digits_value (10 * acc + d) s'
      | None => None
      end
  end.

Definition split_sign (s : string) : bool * string :=
  match s with
  | String "-" r => (true, r)
  | String "+" r => (false, r)
  | _ => (false, s)
  end.

Fixpoint split_dot (s : string) : string * string :=
  match s with
  | EmptyString => ("", "")
  | String "." r => ("", r)
  | String c r => let '(a, b) := split_dot r in (String c a, b)
  end.

Definition invalid_literal (what tok : string) : exn :=
  Exn ValueError [VStr (what +:+ tok)] None.

(** [int(tok)] on an optional sign followed by decimal digits. *)
Definition int_of_str (tok : string) : result Z :=
  let '(neg, body) := split_sign tok in
  match body, digits_value 0 body with
  | String _ _, Some n => Ok (if neg then - n else n)
  | _, _ => Raise (invalid_literal "invalid literal for int() with base 10: " tok)
  end.

Definition signed (neg : bool) (x : float) : float :=
  if neg then PrimFloat.opp x else x.

(** [float(tok)] on [inf], [nan] and on decimal literals of at most 15
    digits: the quotient of two exactly represented integers is the
    correctly rounded value. *)
Definition float_of_str (tok : string) : result float :=
  let '(neg, body) := split_sign tok in
  if bool_decide (body = "inf") then Ok (signed neg PrimFloat.infinity)
  else if bool_decide (body = "nan") then Ok PrimFloat.nan
  else
    let '(ip, fp) := split_dot body in
    match ip +:+ fp, digits_value 0 (ip +:+ fp) with
    | String _ _, Some n =>
        if (n <? 10 ^ 15) && (Z.of_nat (String.length fp) <=? 15)
        then Ok (signed neg
                   (PrimFloat.div
                      (PrimFloat.of_uint63 (Uint63.of_Z n))
                      (PrimFloat.of_uint63
                         (Uint63.of_Z (10 ^ Z.of_nat (String.length fp))))))
        else Raise (invalid_literal "could not convert string to float: " tok)
    | _, _ => Raise (invalid_literal "could not convert string to float: " tok)
    end.

(** numpy refuses a dimension or a byte count that does not fit a signed
    64-bit integer; dimensions of size zero do not count. *)
Definition alloc (dims : list Z) : option exn :=
  if forallb (fun d => d <? 2 ^ 63) dims
     && (8 * product (filter (fun d => d <> 0) dims) <? 2 ^ 63)
  then None
  else Some (Exn ValueError [VStr "array is too big"] None).

Definition runtime : Runtime :=
  {| py_int := int_of_str; py_float := float_of_str;
     np_float := float_of_str; np_alloc := alloc |}.

(** No path names a file. *)
Definition no_files : pyval -> option (list string) := fun _ => None.

(** [str(v)] on [None], [str] and [int] values. *)
Definition str_of (v : pyval) : string :=
  match v with
  | VStr s => s
  | VInt n => str_int n
  | _ => "None"
  end.

End PyRef.

(** ** Sample inputs *)

Module Samples.

Definition LF : string := String (ascii_of_nat 10) "".

(** The lines a file object yields: each keeps its line ending. *)
Definition file_lines (lines : list string) : list string :=
  map (fun l => l +:+ LF) lines.

(** The text of a file. *)
Definition file_text (lines : list string) : string :=
  join_empty (file_lines lines).

(** One carbon atom, a grid of 2 x 1 x 1 voxels, the second axis in
    Angstrom. *)
Definition carbon : list string :=
  ["carbon"; "density";
   "1 0.0 0.0 0.0";
   "2 1.0 0.0 0.0"; "-1 0.0 1.5 0.0"; "1 0.0 0.0 1.0";
   "6 0.0 1.0 2.0 3.0";
   "1.5 2.5"].

(** One oxygen atom, a grid of 1 x 1 x 2 voxels. *)
Definition oxygen : list string :=
  ["oxygen"; "density";
   "1 0.0 0.0 0.0";
   "1 1.0 0.0 0.0"; "1 0.0 1.0 0.0"; "2 0.0 0.0 1.0";
   "8 0.0 0.5 0.5 0.5";
   "0.25 0.75"].

(** [carbon] with each payload value on a line of its own. *)
Definition carbon_wrapped : list string :=
  ["carbon"; "density";
   "1 0.0 0.0 0.0";
   "2 1.0 0.0 0.0"; "-1 0.0 1.5 0.0"; "1 0.0 0.0 1.0";
   "6 0.0 1.0 2.0 3.0";
   "1.5"; "2.5"].

(** A single voxel whose value is split into [1] and [5]. *)
Definition one_voxel_wrapped : list string :=
  ["one"; "voxel";
   "0 0.0 0.0 0.0";
   "1 1.0 0.0 0.0"; "1 0.0 1.0 0.0"; "1 0.0 0.0 1.0";
   "1"; "5"].

(** Two atoms declared, one atom line present. *)
Definition truncated : list string :=
  ["carbon"; "density";
   "2 0.0 0.0 0.0";
   "2 1.0 0.0 0.0"; "-1 0.0 1.5 0.0"; "1 0.0 0.0 1.0";
   "6 0.0 1.0 2.0 3.0"].

(** A voxel count that is not a number. *)
Definition malformed : list string :=
  ["carbon"; "density";
   "1 0.0 0.0 0.0";
   "two 1.0 0.0 0.0"; "-1 0.0 1.5 0.0"; "1 0.0 0.0 1.0";
   "6 0.0 1.0 2.0 3.0";
   "1.5 2.5"].

(** The first axis leans into the second. *)
Definition sheared : list string :=
  ["carbon"; "density";
   "1 0.0 0.0 0.0";
   "2 1.0 0.5 0.0"; "-1 0.0 1.5 0.0"; "1 0.0 0.0 1.0";
   "6 0.0 1.0 2.0 3.0";
   "1.5 2.5"].

(** Three values for two voxels. *)
Definition overfull : list string :=
  ["carbon"; "density";
   "1 0.0 0.0 0.0";
   "2 1.0 0.0 0.0"; "-1 0.0 1.5 0.0"; "1 0.0 0.0 1.0";
   "6 0.0 1.0 2.0 3.0";
   "1.5 2.5 3.5"].


(** An atom count of -1, followed by the payload. *)
Definition negative_atoms : list string :=
  ["carbon"; "density";
   "-1 0.0 0.0 0.0";
   "1 1.0 0.0 0.0"; "1 0.0 1.0 0.0"; "1 0.0 0.0 1.0";
   "1.5"].

(** [carbon] with the three axes in Angstrom and the origin off zero. *)
Definition angstrom : list string :=
  ["carbon"; "density";
   "1 0.5 0.5 0.5";
   "-2 1.0 0.0 0.0"; "-1 0.0 1.5 0.0"; "-1 0.0 0.0 1.0";
   "6 0.0 1.0 2.0 3.0";
   "1.5 2.5"].

(** A grid of 2 x 2 x 2 voxels holding the values 1 to 8, no atom. *)
Definition two_cubed : list string :=
  ["two"; "cubed";
   "0 0.0 0.0 0.0";
   "2 1.0 0.0 0.0"; "2 0.0 1.0 0.0"; "2 0.0 0.0 1.0";
   "1 2 3 4 5 6 7 8"].

(** No voxel along the first axis. *)
Definition empty_grid : list string :=
  ["empty"; "grid";
   "0 0.0 0.0 0.0";
   "0 1.0 0.0 0.0"; "1 0.0 1.0 0.0"; "1 0.0 0.0 1.0"].

(** A file system with two files: [carbon.cube] holds [carbon] and
    [sheared.cube] holds [sheared]. *)
Definition two_files (src : pyval) : option (list string) :=
  match src with
  | VStr name =>
      if String.eqb name "carbon.cube" then Some (file_lines carbon)
      else if String.eqb name "sheared.cube" then Some (file_lines sheared)
      else None
  | _ => None
  end.

(** A grid of 5 x 5 x 5 voxels with the second axis in Angstrom and no
    atom, followed by [count] values on one line. *)
Definition five_cubed (count : nat) : list string :=
  ["five"; "cubed";
   "0 0.0 0.0 0.0";
   "5 1.0 0.0 0.0"; "-5 0.0 1.0 0.0"; "5 0.0 0.0 1.0";
   foldr (fun tok line => tok +:+ " " +:+ line) "" (replicate count "0.5")].

(** The record after [carbon] has been parsed into a new object. *)
Definition carbon_record : Cubefile :=
  snd (read_iterator (RT := PyRef.runtime) default_state carbon).

End Samples.

(** ** The order of binary64 values

    [SFcompare] orders the values that are not NaN as their keys are
    ordered lexicographically: the class (negative infinity, negative, zero,
    positive, positive infinity), then the exponent, then the mantissa. *)

Definition SFkey (x : spec_float) : Z * Z * Z :=
  match x with
  | S754_nan => (0, 0, 0)
  | S754_infinity true => (-2, 0, 0)
  | S754_infinity false => (2, 0, 0)
  | S754_zero _ => (0, 0, 0)
  | S754_finite false m e => (1, e, Zpos m)
  | S754_finite true m e => (-1, - e, Zneg m)
  end.

Definition key_le (a b : Z * Z * Z) : Prop :=
  let '(c1, e1, m1) := a in
  let '(c2, e2, m2) := b in
  c1 < c2 \/ (c1 = c2 /\ (e1 < e2 \/ (e1 = e2 /\ m1 <= m2))).

(** [x <= y] on values that are not NaN. *)
Definition float_le (x y : float) : Prop :=
  key_le (SFkey (Prim2SF x)) (SFkey (Prim2SF y)).

(** * Properties *)

(** ** binary64 facts used by the voxel-shape test *)

Section FloatFacts.

Lemma iter_shr_1_exact (k : positive) : forall m : positive,
  SpecFloat.iter_pos shr_1 k
    {| shr_m := Zpos (Pos.iter xO m k); shr_r := false; shr_s := false |}
  = {| shr_m := Zpos m; shr_r := false; shr_s := false |}.
Proof.
  induction k as [k IH|k IH|]; intro m; cbn [SpecFloat.iter_pos Pos.iter shr_1 orb].
  - now rewrite !IH.
  - now rewrite !IH.
  - reflexivity.
Qed.

Lemma digits2_iter_xO (k : positive) : forall m,
  Zpos (digits2_pos (Pos.iter xO m k)) = Zpos (digits2_pos m) + Zpos k.
Proof.
  induction k as [k IH|k IH|]; intro m; cbn [Pos.iter digits2_pos].
  - rewrite Pos2Z.inj_succ, !IH. lia.
  - rewrite !IH. lia.
  - lia.
Qed.

Lemma SFmul_one_finite s m e :
  valid_binary (S754_finite s m e) = true ->
  SF64mul (S754_finite s m e) (Prim2SF 1) = S754_finite s m e.
Proof.
  intro V. cbn in V. unfold bounded, canonical_mantissa in V.
  apply andb_prop in V as [C B]. apply Z.eqb_eq in C.
  change (Prim2SF 1) with (S754_finite false 4503599627370496 (-52)).
  unfold SF64mul, SFmul. rewrite xorb_false_r.
  replace (m * 4503599627370496)%positive with (Pos.iter xO m 52)
    by (rewrite Pos.mul_comm; reflexivity).
  unfold binary_round_aux, shr_fexp, Zdigits2.
  rewrite digits2_iter_xO.
  replace (Zpos (digits2_pos m) + 52 + (e + -52)) with (Zpos (digits2_pos m) + e)
    by lia.
  rewrite C. replace (e - (e + -52)) with 52 by lia.
  cbn [shr_record_of_loc shr]. rewrite iter_shr_1_exact.
  cbn [shr_m loc_of_shr_record round_nearest_even Zdigits2].
  replace (e + -52 + 52) with e by lia.
  rewrite C, Z.sub_diag. cbn [shr shr_record_of_loc shr_m].
  now rewrite B.
Qed.

(** Multiplication by [1.0] is exact on every binary64 value. *)
Lemma float_mul_one_r (x : float) : (x * 1)%float = x.
Proof.
  apply Prim2SF_inj. rewrite mul_spec.
  pose proof (Prim2SF_valid x) as V.
  destruct (Prim2SF x) as [s|s| |s m e] eqn:E.
  - now destruct s.
  - now destruct s.
  - reflexivity.
  - now apply SFmul_one_finite.
Qed.

(** A finite value times [0.0] is a zero. *)
Lemma float_mul_zero_finite (x : float) :
  PrimFloat.is_finite x = true -> nonzero (x * 0)%float = false.
Proof.
  unfold nonzero, PrimFloat.is_finite, PrimFloat.is_nan, PrimFloat.is_infinity.
  rewrite !FloatAxioms.eqb_spec, mul_spec, abs_spec.
  change (Prim2SF 0) with (S754_zero false).
  change (Prim2SF infinity) with (S754_infinity false).
  destruct (Prim2SF x) as [s|s| |s m e]; cbn; try reflexivity; try discriminate.
  rewrite orb_true_r. discriminate.
Qed.

(** An infinite or NaN value times [0.0] is NaN, which is not zero. *)
Lemma float_mul_zero_not_finite (x : float) :
  PrimFloat.is_finite x = false -> nonzero (x * 0)%float = true.
Proof.
  unfold nonzero, PrimFloat.is_finite, PrimFloat.is_nan, PrimFloat.is_infinity.
  rewrite !FloatAxioms.eqb_spec, mul_spec, abs_spec.
  change (Prim2SF 0) with (S754_zero false).
  change (Prim2SF infinity) with (S754_infinity false).
  destruct (Prim2SF x) as [s|s| |s m e]; cbn; try reflexivity; try discriminate.
  rewrite Z.compare_refl.
  change (PosDef.Pos.compare_cont Eq m m) with (Pos.compare_cont Eq m m).
  rewrite Pos.compare_cont_refl. now destruct s.
Qed.

End FloatFacts.

(** ** Inversion of the monad's operations *)

Section MonadFacts.
Context {A B : Type}.

Lemma bind_Ok (m : M A) (k : A -> M B) s b s' :
  bind m k s = (Ok b, s') ->
  exists a s1, m s = (Ok a, s1) /\ k a s1 = (Ok b, s').
Proof.
  unfold bind. destruct (m s) as [[a|e] s1]; [eauto | discriminate].
Qed.

Lemma bind_Raise (m : M A) (k : A -> M B) s e s' :
  m s = (Raise e, s') -> bind m k s = (Raise e, s').
Proof. unfold bind. now intros ->. Qed.

Lemma bind_step (m : M A) (k : A -> M B) s a s1 :
  m s = (Ok a, s1) -> bind m k s = k a s1.
Proof. unfold bind. now intros ->. Qed.

Lemma lift_Ok (r : result A) s a s' :
  lift r s = (Ok a, s') -> r = Ok a /\ s' = s.
Proof. unfold lift. intros [= -> ->]. auto. Qed.

Lemma ret_Ok (x : A) s a s' : ret x s = (Ok a, s') -> a = x /\ s' = s.
Proof. unfold ret. intros [= -> ->]. auto. Qed.

Lemma raise_Ok (e : exn) s (a : A) s' : raise e s = (Ok a, s') -> False.
Proof. discriminate. Qed.

Lemma rbind_Ok (r : result A) (k : A -> result B) b :
  rbind r k = Ok b -> exists a, r = Ok a /\ k a = Ok b.
Proof. destruct r; cbn; [eauto | discriminate]. Qed.
End MonadFacts.

Lemma modify_Ok f s u s' :
  modify f s = (Ok u, s') -> s' = {| obj := f (obj s); it := it s |}.
Proof. unfold modify. now intros [= _ <-]. Qed.

Lemma get_self_Ok s c s' : get_self s = (Ok c, s') -> c = obj s /\ s' = s.
Proof. unfold get_self. intros [= <- <-]. auto. Qed.

Lemma next_Ok s line s' :
  next s = (Ok line, s') -> it s = line :: it s' /\ obj s' = obj s.
Proof.
  unfold next. destruct (it s) as [|l rest] eqn:E; [discriminate|].
  intros [= -> <-]. auto.
Qed.

Lemma join_rest_Ok s text s' :
  join_rest s = (Ok text, s') ->
  text = join_empty (it s) /\ obj s' = obj s /\ it s' = [].
Proof. unfold join_rest. intros [= <- <-]. auto. Qed.

(** One step of inversion of a successful run. *)
Ltac invert_ok :=
  match goal with
  | H : bind _ _ _ = (Ok _, _) |- _ =>
      let a := fresh "a" in let s := fresh "s" in let H1 := fresh "H" in
      apply bind_Ok in H as (a & s & H1 & H)
  | H : lift _ _ = (Ok _, _) |- _ => apply lift_Ok in H as [H ->]
  | H : ret _ _ = (Ok _, _) |- _ => apply ret_Ok in H as [-> ->]
  | H : raise _ _ = (Ok _, _) |- _ => destruct (raise_Ok _ _ _ _ H)
  | H : modify _ _ = (Ok _, _) |- _ => apply modify_Ok in H as ->
  | H : get_self _ = (Ok _, _) |- _ => apply get_self_Ok in H as [-> ->]
  | H : next _ = (Ok _, _) |- _ => apply next_Ok in H as [? ?]
  | H : join_rest _ = (Ok _, _) |- _ => apply join_rest_Ok in H as (-> & ? & ?)
  | H : rbind _ _ = Ok _ |- _ =>
      let a := fresh "a" in let H1 := fresh "H" in
      apply rbind_Ok in H as (a & H1 & H)
  end.

(** ** Facts about lists and arrays *)

Lemma setitem_Ok {A} (l : list A) i x l' :
  setitem l i x = Ok l' -> (i < length l)%nat /\ l' = <[i := x]> l.
Proof.
  unfold setitem. destruct (Nat.ltb_spec i (length l)); [|discriminate].
  intros [= <-]. auto.
Qed.

Lemma map_result_length {A B} (f : A -> result B) xs ys :
  map_result f xs = Ok ys -> length ys = length xs.
Proof.
  revert ys. induction xs as [|x xs IH]; cbn; intros ys H.
  - now injection H as <-.
  - repeat invert_ok. injection H as <-. cbn. f_equal. eauto.
Qed.

Lemma map_result_lookup {A B} (f : A -> result B) xs ys i x :
  map_result f xs = Ok ys -> xs !! i = Some x ->
  exists y, ys !! i = Some y /\ f x = Ok y.
Proof.
  revert ys i. induction xs as [|x0 xs IH]; cbn; intros ys i H Hx; [done|].
  repeat invert_ok. injection H as <-.
  destruct i as [|i]; cbn in *.
  - injection Hx as ->. eauto.
  - eauto.
Qed.

Lemma map_result_Forall2 {A B} (f : A -> result B) xs ys :
  map_result f xs = Ok ys -> Forall2 (fun x y => f x = Ok y) xs ys.
Proof.
  revert ys. induction xs as [|x xs IH]; cbn; intros ys H.
  - injection H as <-. constructor.
  - repeat invert_ok. injection H as <-. constructor; eauto.
Qed.

(** A stored row of the width of the array is stored as it is. *)
Lemma setrow_Ok a i row a' :
  setrow a i row = Ok a' ->
  (i < length a)%nat /\ length a' = length a /\
  (forall j, j <> i -> a' !! j = a !! j) /\
  exists stored, a' !! i = Some stored /\
    ((1 < length row)%nat -> stored = row).
Proof.
  unfold setrow. destruct (a !! i) as [old|] eqn:E; [|discriminate].
  assert (i < length a)%nat as Hi by (apply lookup_lt_is_Some; eauto).
  intros H.
  assert (exists stored, a' = <[i := stored]> a /\
            ((1 < length row)%nat -> stored = row)) as (stored & -> & Hs).
  { destruct (length row =? length old)%nat.
    - injection H as <-. eauto.
    - destruct row as [|x [|y row]]; try discriminate.
      injection H as <-. eexists. split; [reflexivity|]. cbn. lia. }
  split; [done|]. split; [apply length_insert|]. split.
  - intros j Hj. now apply list_lookup_insert_ne.
  - exists stored. split; [now apply list_lookup_insert_eq | done].
Qed.

(** ** Inversion of the phases of [read_iterator] *)

Section PhaseFacts.
Context `{RT : Runtime}.

Lemma read_header_Ok s u s' :
  read_header s = (Ok u, s') ->
  exists l1 l2,
    it s = l1 :: l2 :: it s' /\ obj s' = with_header (l1 +:+ l2) (obj s).
Proof.
  unfold read_header. intros H. repeat invert_ok.
  exists a, a0. cbn. split; congruence.
Qed.

Lemma read_origin_Ok s n s' :
  read_origin s = (Ok n, s') ->
  exists line o,
    it s = line :: it s' /\
    first_int (py_split line) = Ok n /\
    map_result py_float (slice (py_split line) 1 4) = Ok o /\
    obj s' = with_origin o (obj s).
Proof.
  unfold read_origin. intros H. repeat invert_ok.
  exists a, a1. cbn [obj it]. repeat split; congruence.
Qed.

Lemma read_axis_Ok vc i s vc' s' :
  read_axis vc i s = (Ok vc', s') ->
  exists line n uc row vs,
    it s = line :: it s' /\
    first_int (py_split line) = Ok n /\
    (i < length vc)%nat /\
    vc' = <[i := Z.abs n]> vc /\
    setitem (unit_conversion (obj s)) i
            (if n <? 0 then 1%float else BOHR_TO_ANGSTROM) = Ok uc /\
    np_asarray (slice (py_split line) 1 4) = Ok row /\
    setrow (voxel_shape (obj s)) i row = Ok vs /\
    obj s' = with_voxel_shape vs (with_unit_conversion uc (obj s)).
Proof.
  unfold read_axis. intros H. repeat invert_ok.
  match goal with
  | H : first_int _ = Ok ?n |- _ =>
      exists a, n; destruct (Z.ltb_spec n 0) as [Hn|Hn]
  end; repeat invert_ok;
  repeat match goal with
    | H : setitem vc _ _ = Ok _ |- _ => apply setitem_Ok in H as [? ->]
    | H : setitem (<[_ := _]> vc) _ _ = Ok _ |- _ => apply setitem_Ok in H as [_ ->]
    | H : obj _ = obj _ |- _ => rewrite H in *; clear H
    end;
  cbn [obj it unit_conversion voxel_shape with_unit_conversion] in *;
  do 3 eexists; rewrite ?list_insert_insert_eq.
  - rewrite Z.abs_neq by lia. repeat split; eauto.
  - rewrite Z.abs_eq by lia. repeat split; eauto.
Qed.

Lemma check_square_Ok s u s' :
  check_square s = (Ok u, s') ->
  s' = s /\ non_square (voxel_shape (obj s)) = Ok false.
Proof.
  unfold check_square. intros H. repeat invert_ok.
  destruct a0; repeat invert_ok. auto.
Qed.

Lemma setup_grid_Ok vc s u s' :
  setup_grid vc s = (Ok u, s') ->
  exists o sc,
    it s' = it s /\
    np_alloc vc = None /\
    np_multiply (origin (obj s)) (unit_conversion (obj s)) = Ok o /\
    np_multiply (np_norm_rows (voxel_shape (obj s))) (unit_conversion (obj s))
      = Ok sc /\
    obj s' = with_scale sc
               (with_voxels
                  {| shape := vc; data := replicate (Z.to_nat (product vc)) 0%float |}
                  (with_origin o (obj s))).
Proof.
  unfold setup_grid, np_zeros. intros H. repeat invert_ok.
  destruct (np_alloc vc) eqn:E; [discriminate|].
  destruct (forallb (Z.leb 0) vc); [|discriminate].
  match goal with H : Ok _ = Ok _ |- _ => injection H as <- end.
  cbn [obj it voxel_shape unit_conversion with_voxels with_origin] in *.
  eauto 10.
Qed.

Lemma read_atom_Ok s u s' :
  read_atom s = (Ok u, s') ->
  exists line atom,
    it s = line :: it s' /\
    atom_of_line (unit_conversion (obj s)) line = Ok atom /\
    obj s' = with_atoms (atoms (obj s) ++ [atom]) (obj s).
Proof.
  unfold read_atom. intros H. repeat invert_ok.
  repeat match goal with
    | H : obj _ = obj _ |- _ => rewrite H in *; clear H
    end.
  cbn [obj it]. eauto.
Qed.

Lemma read_atoms_Ok rounds : forall s u s',
  read_atoms rounds s = (Ok u, s') ->
  exists new,
    length new = rounds /\
    (rounds <= length (it s))%nat /\
    it s' = drop rounds (it s) /\
    Forall2 (fun line atom => atom_of_line (unit_conversion (obj s)) line = Ok atom)
            (take rounds (it s)) new /\
    obj s' = with_atoms (atoms (obj s) ++ new) (obj s).
Proof.
  induction rounds as [|rounds IH]; cbn [read_atoms]; intros s u s' H.
  - invert_ok. exists []. cbn. rewrite app_nil_r.
    repeat split; try lia; try constructor. now destruct (obj s).
  - invert_ok. apply read_atom_Ok in H0 as (line & atom & Hit & Hatom & Hobj).
    apply IH in H as (new & Hlen & Hle & Hrest & Hall & Hobj').
    exists (atom :: new). rewrite Hit. cbn.
    rewrite Hobj in Hall, Hobj'. cbn in Hall, Hobj'.
    repeat split; try lia; try done.
    + constructor; done.
    + rewrite Hobj', <- app_assoc. reflexivity.
Qed.

Lemma read_voxels_Ok vc s u s' :
  read_voxels vc s = (Ok u, s') ->
  exists flat,
    np_asarray (py_split (join_empty (it s))) = Ok flat /\
    Z.of_nat (length flat) = product vc /\
    shape (voxels (obj s)) = vc /\
    obj s' = with_voxels {| shape := vc; data := flat |} (obj s).
Proof.
  unfold read_voxels, np_reshape. intros H. repeat invert_ok.
  repeat match goal with
    | H : obj _ = obj _ |- _ => rewrite H in *; clear H
    end.
  match goal with
  | H : (if ?b then _ else _) = Ok _ |- _ =>
      destruct b eqn:Hlen; [injection H as <-|discriminate]
  end.
  apply Z.eqb_eq in Hlen. cbn [obj it voxels with_voxels shape] in H.
  destruct (bool_decide_reflect (shape (voxels (obj s)) = vc)) as [Hvc|];
    repeat invert_ok.
  cbn [obj]. rewrite <- Hvc. eauto.
Qed.

(** The three rounds of the loop over the axis lines. *)
Lemma read_axes_Ok s vc s' :
  read_axes [0; 0; 0] (seq 0 3) s = (Ok vc, s') ->
  exists ax ay az nx ny nz rx ry rz sx sy sz uc vs,
    it s = ax :: ay :: az :: it s' /\
    (first_int (py_split ax) = Ok nx /\
     first_int (py_split ay) = Ok ny /\
     first_int (py_split az) = Ok nz) /\
    vc = [Z.abs nx; Z.abs ny; Z.abs nz] /\
    (uc !! 0%nat = Some ((if nx <? 0 then 1%float else BOHR_TO_ANGSTROM)) /\
     uc !! 1%nat = Some ((if ny <? 0 then 1%float else BOHR_TO_ANGSTROM)) /\
     uc !! 2%nat = Some ((if nz <? 0 then 1%float else BOHR_TO_ANGSTROM))) /\
    (np_asarray (slice (py_split ax) 1 4) = Ok rx /\
     np_asarray (slice (py_split ay) 1 4) = Ok ry /\
     np_asarray (slice (py_split az) 1 4) = Ok rz) /\
    (vs !! 0%nat = Some sx /\ vs !! 1%nat = Some sy /\ vs !! 2%nat = Some sz) /\
    (((1 < length rx)%nat -> sx = rx) /\
     ((1 < length ry)%nat -> sy = ry) /\
     ((1 < length rz)%nat -> sz = rz)) /\
    obj s' = with_voxel_shape vs (with_unit_conversion uc (obj s)).
Proof.
  cbn [read_axes seq]. intros H. repeat invert_ok.
  repeat match goal with
    | H : read_axis _ _ _ = (Ok _, _) |- _ =>
        let line := fresh "line" in let n := fresh "n" in
        let uc := fresh "uc" in let row := fresh "row" in
        let vs := fresh "vs" in
        apply read_axis_Ok in H
          as (line & n & uc & row & vs & ? & ? & ? & -> & ? & ? & ? & ?)
    end.
  repeat match goal with
    | H : obj _ = _ |- _ => rewrite H in *; clear H
    end.
  cbn [unit_conversion voxel_shape with_unit_conversion with_voxel_shape] in *.
  repeat match goal with
    | H : setitem _ _ _ = Ok _ |- _ => apply setitem_Ok in H as [? ->]
    | H : setrow _ _ _ = Ok _ |- _ =>
        let st := fresh "stored" in
        apply setrow_Ok in H as (? & ? & ? & st & ? & ?)
    end.
  rewrite !length_insert in *.
  exists line1, line0, line, n1, n0, n, row1, row0, row.
  exists stored1, stored0, stored.
  exists (<[2%nat := if n <? 0 then 1%float else BOHR_TO_ANGSTROM]>
            (<[1%nat := if n0 <? 0 then 1%float else BOHR_TO_ANGSTROM]>
               (<[0%nat := if n1 <? 0 then 1%float else BOHR_TO_ANGSTROM]>
                  (unit_conversion (obj s))))), vs.
  split; [congruence|]. split; [done|]. split; [reflexivity|].
  split.
  { split; [|split].
    - rewrite !list_lookup_insert_ne by lia.
      apply list_lookup_insert_eq; lia.
    - rewrite list_lookup_insert_ne by lia.
      apply list_lookup_insert_eq. rewrite length_insert. lia.
    - apply list_lookup_insert_eq. rewrite !length_insert. lia. }
  split; [done|]. split; [|split; [done|reflexivity]].
  repeat match goal with
    | H : forall j, j <> ?i -> _ !! j = _ |- _ =>
        try pose proof (H 0%nat ltac:(lia));
        try pose proof (H 1%nat ltac:(lia));
        try pose proof (H 2%nat ltac:(lia)); clear H
    end.
  repeat split; congruence.
Qed.

(** What a successful [read_iterator] has read, and what it has stored. *)
Lemma read_iterator_Ok self lines u self' :
  read_iterator self lines = (Ok u, self') ->
  exists l1 l2 l3 ax ay az rest n nx ny nz rx ry rz sx sy sz o0 new flat,
    lines = l1 :: l2 :: l3 :: ax :: ay :: az :: rest /\
    (first_int (py_split l3) = Ok n /\
     map_result py_float (slice (py_split l3) 1 4) = Ok o0) /\
    (first_int (py_split ax) = Ok nx /\
     first_int (py_split ay) = Ok ny /\
     first_int (py_split az) = Ok nz) /\
    (unit_conversion self' !! 0%nat
       = Some (if nx <? 0 then 1%float else BOHR_TO_ANGSTROM) /\
     unit_conversion self' !! 1%nat
       = Some (if ny <? 0 then 1%float else BOHR_TO_ANGSTROM) /\
     unit_conversion self' !! 2%nat
       = Some (if nz <? 0 then 1%float else BOHR_TO_ANGSTROM)) /\
    (np_asarray (slice (py_split ax) 1 4) = Ok rx /\
     np_asarray (slice (py_split ay) 1 4) = Ok ry /\
     np_asarray (slice (py_split az) 1 4) = Ok rz) /\
    (voxel_shape self' !! 0%nat = Some sx /\
     voxel_shape self' !! 1%nat = Some sy /\
     voxel_shape self' !! 2%nat = Some sz) /\
    (((1 < length rx)%nat -> sx = rx) /\
     ((1 < length ry)%nat -> sy = ry) /\
     ((1 < length rz)%nat -> sz = rz)) /\
    non_square (voxel_shape self') = Ok false /\
    np_multiply o0 (unit_conversion self') = Ok (origin self') /\
    np_multiply (np_norm_rows (voxel_shape self')) (unit_conversion self')
      = Ok (scale self') /\
    ((Z.to_nat n <= length rest)%nat /\
     length new = Z.to_nat n /\
     Forall2 (fun line atom =>
                atom_of_line (unit_conversion self') line = Ok atom)
             (take (Z.to_nat n) rest) new /\
     atoms self' = (atoms self ++ new)%list) /\
    (np_asarray (py_split (join_empty (drop (Z.to_nat n) rest))) = Ok flat /\
     Z.of_nat (length flat) = product [Z.abs nx; Z.abs ny; Z.abs nz] /\
     voxels self' = {| shape := [Z.abs nx; Z.abs ny; Z.abs nz]; data := flat |}) /\
    header self' = l1 +:+ l2 /\
    filename self' = filename self.
Proof.
  unfold read_iterator.
  destruct (read_body _) as [[[]|e] s] eqn:H; [|discriminate].
  intros [= <-]. unfold read_body in H. repeat invert_ok.
  repeat match goal with
    | H : read_header _ = (Ok _, _) |- _ =>
        apply read_header_Ok in H as (l1 & l2 & Hit1 & Ho1)
    | H : read_origin _ = (Ok ?n, _) |- _ =>
        apply read_origin_Ok in H as (l3 & o0 & Hit2 & Hn & Ho0 & Ho2);
        rename n into count
    | H : read_axes _ _ _ = (Ok _, _) |- _ =>
        apply read_axes_Ok in H
          as (ax & ay & az & nx & ny & nz & rx & ry & rz & sx & sy & sz & uc & vs
              & Hit3 & Hcounts & -> & Huc & Hrows & Hvs & Hstored & Ho3)
    | H : check_square _ = (Ok _, _) |- _ =>
        apply check_square_Ok in H as [-> Hsq]
    | H : setup_grid _ _ = (Ok _, ?s') |- _ =>
        apply setup_grid_Ok in H as (o & sc & Hit4 & _ & Horigin & Hscale & Ho4);
        rename s' into sg
    | H : read_atoms _ _ = (Ok _, _) |- _ =>
        apply read_atoms_Ok in H as (new & Hlen & Hle & Hit5 & Hatoms & Ho5)
    | H : read_voxels _ _ = (Ok _, _) |- _ =>
        apply read_voxels_Ok in H as (flat & Hflat & Hsize & _ & Ho6)
    end.
  cbn [it obj] in *. subst self'.
  rewrite Ho6, Ho5, Ho4.
  rewrite Ho4 in Hatoms. rewrite Ho3, Ho2, Ho1 in *.
  rewrite Hit4 in *. rewrite Hit5 in Hflat.
  cbn in Hsq, Horigin, Hscale, Hatoms |- *.
  exists l1, l2, l3, ax, ay, az, (it sg), count, nx, ny, nz.
  exists rx, ry, rz, sx, sy, sz, o0, new, flat.
  rewrite Hit4.
  repeat split; try tauto; try congruence.
Qed.

End PhaseFacts.

(** ** Failure of [read_iterator] *)

(** C1. Whenever [read_iterator] fails -- on a missing line, a malformed
    token, a non-diagonal voxel shape or a wrong number of voxels -- the
    exception raised is a [ValueError] whose arguments are
    ["Error reading file"] followed by the arguments of the exception that
    the body of the [try] block raised on these lines, and whose context is
    that very exception; and the object is left in the state [reset]
    creates: no file name, empty header, zero origin, voxel shape and unit
    conversion and scale of ones, no atoms and a voxel array of size
    zero. *)
Theorem read_iterator_failure_resets `{RT : Runtime}
    (self : Cubefile) (lines : list string) (err : exn) (self' : Cubefile) :
  read_iterator self lines = (Raise err, self') ->
  (exists kind args context,
     fst (read_body {| obj := self; it := lines |}) = Raise (Exn kind args context) /\
     err = Exn ValueError (VStr "Error reading file" :: args)
             (Some (Exn kind args context))) /\
  self' = default_state /\
  filename self' = None /\
  header self' = "" /\
  origin self' = [0; 0; 0]%float /\
  voxel_shape self' = [[1; 1; 1]; [1; 1; 1]; [1; 1; 1]]%float /\
  unit_conversion self' = [1; 1; 1]%float /\
  scale self' = [1; 1; 1]%float /\
  atoms self' = [] /\
  voxel_count self' = [0] /\
  voxel_total self' = 0.
Proof.
  unfold read_iterator.
  destruct (read_body _) as [[u|[kind args context]] s]; [discriminate|].
  intros [= <- <-]. split; [now exists kind, args, context|]. now repeat split.
Qed.

(** A populated object that is given a truncated atom list ends up reset,
    and the error carries the [StopIteration] of the missing line. *)
Lemma read_iterator_failure_resets_witness :
  read_iterator (RT := PyRef.runtime) Samples.carbon_record Samples.truncated
    = (Raise (Exn ValueError [VStr "Error reading file"]
                (Some (Exn StopIteration [] None))),
       default_state) /\
  fst (read_body (RT := PyRef.runtime)
         {| obj := Samples.carbon_record; it := Samples.truncated |})
    = Raise (Exn StopIteration [] None) /\
  atoms Samples.carbon_record <> [] /\
  atoms default_state = [] /\
  voxel_total default_state = 0.
Proof.
  assert (read_iterator (RT := PyRef.runtime) Samples.carbon_record Samples.truncated
          = (Raise (Exn ValueError [VStr "Error reading file"]
                      (Some (Exn StopIteration [] None))),
             default_state)) as H
    by (vm_compute; reflexivity).
  pose proof (read_iterator_failure_resets _ _ _ _ H)
    as ((kind & args & context & Hbody & Herr) & P).
  inversion Herr; subst.
  split; [exact H|]. split; [exact Hbody|]. split; [vm_compute; discriminate|].
  split; [apply P | apply P].
Defined.

(** The other three causes of failure, on an object that was populated. *)
Example malformed_token_resets :
  read_iterator (RT := PyRef.runtime) Samples.carbon_record Samples.malformed
  = (Raise (reading_error
              (PyRef.invalid_literal "invalid literal for int() with base 10: " "two")),
     default_state).
Proof. vm_compute. reflexivity. Qed.

Example non_diagonal_shape_resets :
  read_iterator (RT := PyRef.runtime) Samples.carbon_record Samples.sheared
  = (Raise (reading_error (Exn ValueError [VStr "Non square voxel shape."] None)),
     default_state).
Proof. vm_compute. reflexivity. Qed.

Example voxel_count_mismatch_resets :
  read_iterator (RT := PyRef.runtime) Samples.carbon_record Samples.overfull
  = (Raise (reading_error (Exn ValueError [VStr "cannot reshape array"] None)),
     default_state).
Proof. vm_compute. reflexivity. Qed.

(** ** Reading into an object that is already populated *)

(** C2 (the code differs). [read] does not start from a reset object: the
    atoms of the new source are appended to those already present, and a
    file name set by an earlier read survives a read from text.  After
    [carbon.cube] has been read, reading the text of [oxygen] succeeds and
    leaves two atoms and the old file name, where a new object holds one
    atom and no file name. *)
Theorem reread_keeps_previous_contents :
  let read := read (RT := PyRef.runtime) Samples.two_files in
  let first := read default_state (VStr "carbon.cube") in
  let again := read (snd first) (VStr (Samples.file_text Samples.oxygen)) in
  let fresh := read default_state (VStr (Samples.file_text Samples.oxygen)) in
  fst first = Ok tt /\ fst again = Ok tt /\ fst fresh = Ok tt /\
  map element (atoms (snd again)) = [6; 8] /\
  map element (atoms (snd fresh)) = [8] /\
  filename (snd again) = Some (VStr "carbon.cube") /\
  filename (snd fresh) = None /\
  snd again <> snd fresh.
Proof.
  vm_compute. repeat split. discriminate.
Qed.

(** ** Failures hidden by [read] *)

(** C3 (the code differs). A parse failure is reported as such only for a
    text source.  For an iterable of lines the failure is caught and
    replaced by the ["Could not read"] error, which has no context; for a
    path, the failure of the file's content is caught and the path itself
    is then parsed as text, so that the error that surfaces has another
    cause. *)
Theorem read_hides_parse_failure :
  let read := read (RT := PyRef.runtime) Samples.two_files in
  let non_square := Exn ValueError [VStr "Non square voxel shape."] None in
  fst (read_iterator (RT := PyRef.runtime) default_state Samples.sheared)
    = Raise (reading_error non_square) /\
  fst (read default_state (VStr (Samples.file_text Samples.sheared)))
    = Raise (reading_error non_square) /\
  fst (read default_state (VList Samples.sheared))
    = Raise (could_not_read (VList Samples.sheared)) /\
  exn_context (could_not_read (VList Samples.sheared)) = None /\
  fst (read_iterator (RT := PyRef.runtime) default_state
         (Samples.file_lines Samples.sheared))
    = Raise (reading_error non_square) /\
  fst (read default_state (VStr "sheared.cube"))
    = Raise (reading_error (Exn StopIteration [] None)).
Proof.
  vm_compute. repeat split.
Qed.

(** ** Line breaks in the voxel payload *)

Lemma tokens_from_line_break cur s1 s2 :
  tokens_from cur (s1 +:+ Samples.LF +:+ s2)
  = (tokens_from cur s1 ++ tokens_from "" s2)%list.
Proof.
  revert cur. induction s1 as [|c s1 IH]; intro cur.
  - reflexivity.
  - change (String c s1 +:+ Samples.LF +:+ s2)
      with (String c (s1 +:+ Samples.LF +:+ s2)).
    cbn [tokens_from]. destruct (isspace c); [|apply IH].
    rewrite IH. apply app_assoc.
Qed.

Lemma string_app_assoc (a b c : string) : (a +:+ b) +:+ c = a +:+ (b +:+ c).
Proof.
  induction a as [|x a IH]; [reflexivity|].
  change (String x ((a +:+ b) +:+ c) = String x (a +:+ (b +:+ c))).
  now rewrite IH.
Qed.

(** With the line endings kept, as a file object yields them, the tokens of
    the joined lines are the tokens of the lines. *)
Lemma py_split_file_lines (lines : list string) :
  py_split (join_empty (Samples.file_lines lines)) = concat (map py_split lines).
Proof.
  unfold py_split. induction lines as [|l lines IH]; cbn; [reflexivity|].
  rewrite <- IH, string_app_assoc.
  apply tokens_from_line_break.
Qed.

(** C5 (the code differs). The lines of a text source come from
    [splitlines], which drops the line breaks, and the payload is joined
    with the empty string: two values separated only by a line break become
    one token.  The payload [1.5], [2.5] on two lines is read from a file,
    fails from text where the same values on one line succeed, and a voxel
    written as [1] and [5] on two lines is read as 15. *)
Theorem text_source_joins_payload_lines :
  let read := read (RT := PyRef.runtime) PyRef.no_files default_state in
  let parse := read_iterator (RT := PyRef.runtime) default_state in
  (forall lines,
     py_split (join_empty (Samples.file_lines lines)) = concat (map py_split lines)) /\
  splitlines (Samples.file_text Samples.carbon_wrapped) = Samples.carbon_wrapped /\
  py_split (join_empty ["1.5"; "2.5"]) = ["1.52.5"] /\
  data (voxels (snd (parse (Samples.file_lines Samples.carbon_wrapped))))
    = [1.5; 2.5]%float /\
  data (voxels (snd (read (VStr (Samples.file_text Samples.carbon)))))
    = [1.5; 2.5]%float /\
  is_ok (fst (read (VStr (Samples.file_text Samples.carbon_wrapped)))) = false /\
  fst (read (VStr (Samples.file_text Samples.one_voxel_wrapped))) = Ok tt /\
  data (voxels (snd (read (VStr (Samples.file_text Samples.one_voxel_wrapped)))))
    = [15]%float.
Proof.
  split; [apply py_split_file_lines|].
  vm_compute. repeat split.
Qed.

(** ** Construction *)

(** C10. Constructing a [Cubefile] from [None], the empty string, [0] or
    an empty list reads nothing: no exception is raised and the object is
    in the state [reset] creates, although parsing the empty string as the
    content of a cube file fails. *)
Theorem init_falsy_source `{RT : Runtime} (fs : pyval -> option (list string)) :
  init fs VNone = (Ok tt, default_state) /\
  init fs (VStr "") = (Ok tt, default_state) /\
  init fs (VInt 0) = (Ok tt, default_state) /\
  init fs (VList []) = (Ok tt, default_state) /\
  read_iterator default_state (splitlines "")
    = (Raise (reading_error (Exn StopIteration [] None)), default_state).
Proof.
  repeat split.
Qed.

(** ** The derived properties *)

(** The maximum exists exactly when there is a voxel. *)
Lemma np_abs_max_is_ok (a : ndarray) :
  is_ok (np_abs_max a) = negb (Z.of_nat (length (data a)) =? 0).
Proof.
  unfold np_abs_max. now destruct (data a).
Qed.

(** C4 as stated fails: [max_voxel_val] raises on a new object, and on a
    parsed file whose grid has no voxel. *)
Lemma max_voxel_val_raises_without_voxels :
  is_ok (max_voxel_val default_state) = false /\
  read_iterator (RT := PyRef.runtime) default_state Samples.empty_grid
    = (Ok tt, snd (read_iterator (RT := PyRef.runtime) default_state Samples.empty_grid)) /\
  is_ok (max_voxel_val
           (snd (read_iterator (RT := PyRef.runtime) default_state Samples.empty_grid)))
    = false.
Proof. vm_compute. repeat split. Qed.

(** C4, amended. On a new object and on every object a successful parse
    leaves, [voxel_count], [voxel_total] and [atom_count] are plain
    functions of the state, the total is the product of the dimensions and
    the number of stored voxels, and [max_voxel_val] returns a value if the
    total is not zero and raises a [ValueError], without context, if it is
    zero. *)
Theorem derived_properties `{RT : Runtime}
    (self0 : Cubefile) (lines : list string) (self : Cubefile) :
  self = default_state \/ read_iterator self0 lines = (Ok tt, self) ->
  voxel_total self = product (voxel_count self) /\
  Z.of_nat (length (data (voxels self))) = voxel_total self /\
  atom_count self = length (atoms self) /\
  is_ok (max_voxel_val self) = negb (voxel_total self =? 0) /\
  match max_voxel_val self with
  | Ok _ => voxel_total self <> 0
  | Raise (Exn kind _ context) =>
      voxel_total self = 0 /\ kind = ValueError /\ context = None
  end.
Proof.
  intros H. split; [reflexivity|].
  assert (Z.of_nat (length (data (voxels self))) = voxel_total self) as E.
  { destruct H as [->|H]; [reflexivity|].
    apply read_iterator_Ok in H
      as (l1 & l2 & l3 & ax & ay & az & rest & n & nx & ny & nz & rx & ry & rz
          & sx & sy & sz & o0 & new & flat & _ & _ & _ & _ & _ & _ & _ & _ & _
          & _ & _ & (_ & Hsize & Hv) & _).
    unfold voxel_total, size. now rewrite Hv. }
  split; [exact E|]. split; [reflexivity|].
  split; [unfold max_voxel_val; now rewrite np_abs_max_is_ok, E|].
  unfold max_voxel_val, np_abs_max.
  destruct (data (voxels self)) as [|x xs]; cbn in E |- *.
  - now repeat split.
  - lia.
Qed.

Lemma derived_properties_witness :
  is_ok (max_voxel_val Samples.carbon_record) = negb (voxel_total Samples.carbon_record =? 0) /\
  voxel_total Samples.carbon_record = 2.
Proof.
  split; [|reflexivity].
  destruct (derived_properties (RT := PyRef.runtime) default_state Samples.carbon
              Samples.carbon_record) as (_ & _ & _ & H & _).
  - right. vm_compute. reflexivity.
  - exact H.
Defined.

(** On a parsed grid without voxels the exception is a [ValueError]. *)
Example max_voxel_val_on_empty_grid :
  max_voxel_val
    (snd (read_iterator (RT := PyRef.runtime) default_state Samples.empty_grid))
  = Raise (Exn ValueError
             [VStr "zero-size array to reduction operation maximum which has no identity"]
             None).
Proof. vm_compute. reflexivity. Qed.

(** ** The voxel payload *)

(** The C-order offset of an in-range index lies inside the buffer. *)
Lemma row_major_bound (X Y Z i j k : Z) :
  0 <= i < X -> 0 <= j < Y -> 0 <= k < Z ->
  0 <= i * (Y * Z) + j * Z + k < X * Y * Z.
Proof.
  intros Hi Hj Hk.
  assert (0 <= Y * Z) by nia.
  assert (i * (Y * Z) <= (X - 1) * (Y * Z)) by (apply Z.mul_le_mono_nonneg_r; lia).
  assert (j * Z <= (Y - 1) * Z) by (apply Z.mul_le_mono_nonneg_r; lia).
  assert (0 <= i * (Y * Z)) by (apply Z.mul_nonneg_nonneg; lia).
  assert (0 <= j * Z) by (apply Z.mul_nonneg_nonneg; lia).
  split; [lia|].
  replace (X * Y * Z) with ((X - 1) * (Y * Z) + (Y - 1) * Z + Z) by ring.
  lia.
Qed.

(** X17. The payload is the text obtained by joining the lines left after
    the atom lines with the empty string.  A parse succeeds only if this
    text splits into as many tokens as the product of the absolute values
    of the three declared counts.  The shape of the grid is then these
    three absolute values, and the tokens of the text fill it in C order:
    voxel [(i, j, k)] is the value of token number
    [i * (ny * nz) + j * nz + k]. *)
Theorem voxel_payload_fills_grid `{RT : Runtime}
    (self : Cubefile) (lines : list string) (self' : Cubefile) :
  read_iterator self lines = (Ok tt, self') ->
  exists l1 l2 l3 ax ay az rest n nx ny nz,
    lines = l1 :: l2 :: l3 :: ax :: ay :: az :: rest /\
    first_int (py_split l3) = Ok n /\
    first_int (py_split ax) = Ok nx /\
    first_int (py_split ay) = Ok ny /\
    first_int (py_split az) = Ok nz /\
    let payload := py_split (join_empty (drop (Z.to_nat n) rest)) in
    Z.of_nat (length payload) = Z.abs nx * Z.abs ny * Z.abs nz /\
    voxel_count self' = [Z.abs nx; Z.abs ny; Z.abs nz] /\
    voxel_total self' = Z.abs nx * Z.abs ny * Z.abs nz /\
    Forall2 (fun tok x => np_float tok = Ok x) payload (data (voxels self')) /\
    forall i j k,
      0 <= i < Z.abs nx -> 0 <= j < Z.abs ny -> 0 <= k < Z.abs nz ->
      exists tok x,
        payload !! Z.to_nat (i * (Z.abs ny * Z.abs nz) + j * Z.abs nz + k) = Some tok /\
        np_float tok = Ok x /\
        item3 (voxels self') i j k = Some x.
Proof.
  intros H.
  apply read_iterator_Ok in H
    as (l1 & l2 & l3 & ax & ay & az & rest & n & nx & ny & nz & rx & ry & rz
        & sx & sy & sz & o0 & new & flat & -> & (Hn & _) & (Hx & Hy & Hz) & _
        & _ & _ & _ & _ & _ & _ & _ & (Hflat & Hsize & Hv) & _).
  exists l1, l2, l3, ax, ay, az, rest, n, nx, ny, nz.
  do 5 (split; [done|]). intro payload. fold payload in Hflat.
  unfold np_asarray in Hflat.
  pose proof (map_result_length _ _ _ Hflat) as Hlen.
  cbn [product foldr] in Hsize.
  unfold voxel_count, voxel_total, size. rewrite Hv. cbn [shape data product foldr].
  split; [lia|]. split; [reflexivity|]. split; [lia|].
  split; [now apply map_result_Forall2|].
  intros i j k Hi Hj Hk.
  set (idx := Z.to_nat (i * (Z.abs ny * Z.abs nz) + j * Z.abs nz + k)).
  pose proof (row_major_bound _ _ _ _ _ _ Hi Hj Hk) as Hb.
  assert (idx < length payload)%nat as Hidx by (unfold idx; lia).
  apply lookup_lt_is_Some in Hidx as [tok Htok].
  destruct (map_result_lookup _ _ _ _ _ Hflat Htok) as (x & Hx' & Htokx).
  exists tok, x. unfold item3. cbn [shape data]. auto.
Qed.

Lemma voxel_payload_fills_grid_witness :
  let grid :=
    voxels (snd (read_iterator (RT := PyRef.runtime) default_state
                   Samples.two_cubed)) in
  shape grid = [2; 2; 2] /\
  item3 grid 0 0 1 = Some 2%float /\
  item3 grid 0 1 0 = Some 3%float /\
  item3 grid 1 0 0 = Some 5%float.
Proof.
  destruct (voxel_payload_fills_grid (RT := PyRef.runtime)
              default_state Samples.two_cubed
              (snd (read_iterator (RT := PyRef.runtime) default_state
                      Samples.two_cubed)))
    as (l1 & l2 & l3 & ax & ay & az & rest & n & nx & ny & nz & _).
  - vm_compute. reflexivity.
  - vm_compute. repeat split.
Defined.

(** When the joined text splits into any other number of tokens, the
    parse fails. *)
Corollary wrong_token_count_fails `{RT : Runtime}
    (self : Cubefile) l1 l2 l3 ax ay az rest n nx ny nz :
  first_int (py_split l3) = Ok n ->
  first_int (py_split ax) = Ok nx ->
  first_int (py_split ay) = Ok ny ->
  first_int (py_split az) = Ok nz ->
  Z.of_nat (length (py_split (join_empty (drop (Z.to_nat n) rest))))
    <> Z.abs nx * Z.abs ny * Z.abs nz ->
  is_ok (fst (read_iterator self (l1 :: l2 :: l3 :: ax :: ay :: az :: rest))) = false.
Proof.
  intros Hn Hx Hy Hz Hne.
  destruct (read_iterator self _) as [[[]|e] self'] eqn:H; [exfalso|reflexivity].
  apply read_iterator_Ok in H
    as (l1' & l2' & l3' & ax' & ay' & az' & rest' & n' & nx' & ny' & nz' & rx & ry
        & rz & sx & sy & sz & o0 & new & flat & [= <- <- <- <- <- <- <-]
        & (Hn' & _) & (Hx' & Hy' & Hz') & _
        & _ & _ & _ & _ & _ & _ & _ & (Hflat & Hsize & Hv) & _).
  assert (n' = n) as -> by congruence.
  assert (nx' = nx) as -> by congruence.
  assert (ny' = ny) as -> by congruence.
  assert (nz' = nz) as -> by congruence.
  apply map_result_length in Hflat. cbn [product foldr] in Hsize. lia.
Qed.

(** C6 (the code differs). The tokens are counted after the remaining
    lines have been joined with the empty string, not as they stand on the
    lines.  When the lines carry no line endings, as the lines of a text
    source and of a list do, two values for a grid of one voxel are
    accepted and read as one value, and two values for a grid of two voxels
    are rejected.  With the line endings kept, as a file yields them, the
    same two values fill the grid of two voxels. *)
Theorem payload_tokens_are_counted_after_join :
  let parse := read_iterator (RT := PyRef.runtime) default_state in
  let read := read (RT := PyRef.runtime) PyRef.no_files default_state in
  concat (map py_split (drop 6 Samples.one_voxel_wrapped)) = ["1"; "5"] /\
  py_split (join_empty (drop 6 Samples.one_voxel_wrapped)) = ["15"] /\
  fst (parse Samples.one_voxel_wrapped) = Ok tt /\
  voxel_count (snd (parse Samples.one_voxel_wrapped)) = [1; 1; 1] /\
  data (voxels (snd (parse Samples.one_voxel_wrapped))) = [15]%float /\
  fst (read (VStr (Samples.file_text Samples.one_voxel_wrapped))) = Ok tt /\
  concat (map py_split (drop 7 Samples.carbon_wrapped)) = ["1.5"; "2.5"] /\
  py_split (join_empty (drop 7 Samples.carbon_wrapped)) = ["1.52.5"] /\
  is_ok (fst (parse Samples.carbon_wrapped)) = false /\
  is_ok (fst (read (VStr (Samples.file_text Samples.carbon_wrapped)))) = false /\
  fst (parse (Samples.file_lines Samples.carbon_wrapped)) = Ok tt /\
  voxel_count (snd (parse (Samples.file_lines Samples.carbon_wrapped))) = [2; 1; 1] /\
  data (voxels (snd (parse (Samples.file_lines Samples.carbon_wrapped))))
    = [1.5; 2.5]%float.
Proof. vm_compute. repeat split. Qed.

(** 125 values fill a grid of 5 x 5 x 5 voxels; 124 or 126 values fail. *)
Example five_cubed_scenario :
  let parse := read_iterator (RT := PyRef.runtime) default_state in
  fst (parse (Samples.five_cubed 125)) = Ok tt /\
  voxel_count (snd (parse (Samples.five_cubed 125))) = [5; 5; 5] /\
  unit_conversion (snd (parse (Samples.five_cubed 125)))
    = [BOHR_TO_ANGSTROM; 1%float; BOHR_TO_ANGSTROM] /\
  atoms (snd (parse (Samples.five_cubed 125))) = [] /\
  parse (Samples.five_cubed 124)
    = (Raise (reading_error (Exn ValueError [VStr "cannot reshape array"] None)),
       default_state) /\
  parse (Samples.five_cubed 126)
    = (Raise (reading_error (Exn ValueError [VStr "cannot reshape array"] None)),
       default_state).
Proof. vm_compute. repeat split. Qed.

(** ** Units *)

(** C7. After a successful parse, the unit conversion of each axis is 1.0
    if the count declared for the axis is negative and the Bohr constant
    5.29177210903 / 10.0 otherwise, zero included, and the voxel count
    stored for each axis is the absolute value of the declared one. *)
Theorem unit_conversion_follows_sign `{RT : Runtime}
    (self : Cubefile) (lines : list string) (self' : Cubefile) :
  read_iterator self lines = (Ok tt, self') ->
  exists l1 l2 l3 ax ay az rest nx ny nz,
    lines = l1 :: l2 :: l3 :: ax :: ay :: az :: rest /\
    first_int (py_split ax) = Ok nx /\
    first_int (py_split ay) = Ok ny /\
    first_int (py_split az) = Ok nz /\
    unit_conversion self' !! 0%nat
      = Some (if nx <? 0 then 1.0%float else BOHR_TO_ANGSTROM) /\
    unit_conversion self' !! 1%nat
      = Some (if ny <? 0 then 1.0%float else BOHR_TO_ANGSTROM) /\
    unit_conversion self' !! 2%nat
      = Some (if nz <? 0 then 1.0%float else BOHR_TO_ANGSTROM) /\
    BOHR_TO_ANGSTROM = (5.29177210903 / 10.0)%float /\
    voxel_count self' = [Z.abs nx; Z.abs ny; Z.abs nz].
Proof.
  intros H.
  apply read_iterator_Ok in H
    as (l1 & l2 & l3 & ax & ay & az & rest & n & nx & ny & nz & rx & ry & rz
        & sx & sy & sz & o0 & new & flat & -> & _ & (Hx & Hy & Hz)
        & (Hu0 & Hu1 & Hu2) & _ & _ & _ & _ & _ & _ & _ & (_ & _ & Hv) & _).
  exists l1, l2, l3, ax, ay, az, rest, nx, ny, nz.
  unfold voxel_count. rewrite Hv. now repeat split.
Qed.

Lemma unit_conversion_follows_sign_witness :
  unit_conversion Samples.carbon_record
    = [BOHR_TO_ANGSTROM; 1.0%float; BOHR_TO_ANGSTROM] /\
  voxel_count Samples.carbon_record = [2; 1; 1].
Proof.
  destruct (unit_conversion_follows_sign (RT := PyRef.runtime)
              default_state Samples.carbon Samples.carbon_record)
    as (l1 & l2 & l3 & ax & ay & az & rest & nx & ny & nz & _).
  - vm_compute. reflexivity.
  - vm_compute. split; reflexivity.
Defined.

(** ** The test for non-square voxels *)

(** What the test computes on a 3 x 3 array: an off-diagonal entry is
    multiplied by 1.0 and a diagonal entry by 0.0. *)
Lemma non_square_3x3 (a b c d e f g h i : float) :
  non_square [[a; b; c]; [d; e; f]; [g; h; i]]
  = Ok (existsb nonzero [b; c; d; f; g; h]
        || negb (forallb PrimFloat.is_finite [a; e; i])).
Proof.
  unfold non_square, np_multiply2, np_identity3.
  cbn [map length zip_with rbind].
  rewrite bool_decide_eq_true_2 by reflexivity.
  cbn [rbind zip_with np_any2 existsb forallb].
  change (1 - 1)%float with 0%float. change (1 - 0)%float with 1%float.
  rewrite !float_mul_one_r. f_equal.
  destruct (PrimFloat.is_finite a) eqn:Ha;
    [rewrite (float_mul_zero_finite a Ha)
    |rewrite (float_mul_zero_not_finite a Ha)];
  (destruct (PrimFloat.is_finite e) eqn:He;
    [rewrite (float_mul_zero_finite e He)
    |rewrite (float_mul_zero_not_finite e He)]);
  (destruct (PrimFloat.is_finite i) eqn:Hi;
    [rewrite (float_mul_zero_finite i Hi)
    |rewrite (float_mul_zero_not_finite i Hi)]);
  destruct (nonzero b), (nonzero c), (nonzero d), (nonzero f),
    (nonzero g), (nonzero h); reflexivity.
Qed.

(** An array that passes the test has three rows. *)
Lemma non_square_Ok_rows vs b r0 r1 r2 :
  non_square vs = Ok b ->
  vs !! 0%nat = Some r0 -> vs !! 1%nat = Some r1 -> vs !! 2%nat = Some r2 ->
  vs = [r0; r1; r2].
Proof.
  unfold non_square, np_multiply2. intros H H0 H1 H2.
  destruct (bool_decide_reflect
              (map length vs
               = map length (map (map (fun x => (1.0 - x)%float)) np_identity3)))
    as [E|]; [|discriminate].
  apply (f_equal length) in E. rewrite !length_map in E. cbn in E.
  destruct vs as [|x0 [|x1 [|x2 [|x3 vs]]]]; try discriminate.
  cbn in H0, H1, H2. congruence.
Qed.




(** ** The atom list *)

(** C9 as stated fails: a negative atom count is accepted, no atom line is
    read for it, and the list of atoms does not have that length. *)
Lemma negative_atom_count_reads_no_atoms :
  ~ (forall (RT : Runtime) lines l1 l2 l3 tail n self',
       lines = l1 :: l2 :: l3 :: tail ->
       first_int (py_split l3) = Ok n ->
       read_iterator default_state lines = (Ok tt, self') ->
       Z.of_nat (length (atoms self')) = n).
Proof.
  intros H.
  specialize (H PyRef.runtime Samples.negative_atoms
                "carbon" "density" "-1 0.0 0.0 0.0"
                ["1 1.0 0.0 0.0"; "1 0.0 1.0 0.0"; "1 0.0 0.0 1.0"; "1.5"]
                (-1)
                (snd (read_iterator (RT := PyRef.runtime) default_state
                        Samples.negative_atoms))).
  assert (Z.of_nat 0 = -1) as E; [|discriminate].
  apply H; vm_compute; reflexivity.
Qed.

(** C9, amended. A successful parse that finds the atom count [n] reads
    the [max n 0] lines that follow the axis lines as atom lines, appends
    their atoms in file order to the atoms the object already holds, and
    takes all later lines as the voxel payload.  On an object without
    atoms and for [n >= 0] the list of atoms has length [n]; for [n < 0] no
    atom is added. *)
Theorem atoms_read_in_file_order `{RT : Runtime}
    (self : Cubefile) (lines : list string) (self' : Cubefile) :
  read_iterator self lines = (Ok tt, self') ->
  exists l1 l2 l3 ax ay az rest n new,
    lines = l1 :: l2 :: l3 :: ax :: ay :: az :: rest /\
    first_int (py_split l3) = Ok n /\
    (Z.to_nat n <= length rest)%nat /\
    atoms self' = (atoms self ++ new)%list /\
    length new = Z.to_nat n /\
    Forall2 (fun line atom => atom_of_line (unit_conversion self') line = Ok atom)
            (take (Z.to_nat n) rest) new /\
    np_asarray (py_split (join_empty (drop (Z.to_nat n) rest)))
      = Ok (data (voxels self')) /\
    (atoms self = [] -> 0 <= n -> Z.of_nat (atom_count self') = n) /\
    (n < 0 -> atoms self' = atoms self).
Proof.
  intros H.
  apply read_iterator_Ok in H
    as (l1 & l2 & l3 & ax & ay & az & rest & n & nx & ny & nz & rx & ry & rz
        & sx & sy & sz & o0 & new & flat & -> & (Hn & _) & _ & _ & _ & _ & _ & _
        & _ & _ & (Hle & Hlen & Hall & Hatoms) & (Hflat & _ & Hv) & _).
  exists l1, l2, l3, ax, ay, az, rest, n, new.
  rewrite Hv. cbn [data].
  repeat split; try done.
  - intros Hnil Hpos. unfold atom_count. rewrite Hatoms, Hnil. cbn. lia.
  - intros Hneg. rewrite Hatoms.
    destruct new; [apply app_nil_r | cbn in Hlen; lia].
Qed.

Lemma atoms_read_in_file_order_witness :
  map element (atoms Samples.carbon_record) = [6] /\
  atom_count Samples.carbon_record = 1%nat.
Proof.
  destruct (atoms_read_in_file_order (RT := PyRef.runtime)
              default_state Samples.carbon Samples.carbon_record)
    as (l1 & l2 & l3 & ax & ay & az & rest & n & new & _).
  - vm_compute. reflexivity.
  - vm_compute. split; reflexivity.
Defined.

(** * Further properties of the parser *)

Section RecordFacts.
Context `{RT : Runtime}.

Lemma setrow_stored a i row a' :
  setrow a i row = Ok a' ->
  exists stored,
    a' = <[i := stored]> a /\ (i < length a)%nat /\
    (stored = row \/ exists x, row = [x] /\ stored = replicate (length stored) x).
Proof.
  unfold setrow. destruct (a !! i) as [old|] eqn:E; [|discriminate].
  assert (i < length a)%nat as Hi by (apply lookup_lt_is_Some; eauto).
  destruct (length row =? length old)%nat.
  - intros [= <-]. exists row. auto.
  - destruct row as [|x [|y row]]; try discriminate.
    intros [= <-]. exists (replicate (length old) x).
    split; [done|]. split; [done|]. right. exists x.
    now rewrite length_replicate.
Qed.

(** The rows the loop over the axis lines has stored. *)
Lemma read_axes_stored s vc s' :
  read_axes [0; 0; 0] (seq 0 3) s = (Ok vc, s') ->
  exists ax ay az rx ry rz sx sy sz,
    it s = ax :: ay :: az :: it s' /\
    (np_asarray (slice (py_split ax) 1 4) = Ok rx /\
     np_asarray (slice (py_split ay) 1 4) = Ok ry /\
     np_asarray (slice (py_split az) 1 4) = Ok rz) /\
    (voxel_shape (obj s') !! 0%nat = Some sx /\
     voxel_shape (obj s') !! 1%nat = Some sy /\
     voxel_shape (obj s') !! 2%nat = Some sz) /\
    (sx = rx \/ exists x, rx = [x] /\ sx = replicate (length sx) x) /\
    (sy = ry \/ exists x, ry = [x] /\ sy = replicate (length sy) x) /\
    (sz = rz \/ exists x, rz = [x] /\ sz = replicate (length sz) x).
Proof.
  cbn [read_axes seq]. intros H. repeat invert_ok.
  repeat match goal with
    | H : read_axis _ _ _ = (Ok _, _) |- _ =>
        let line := fresh "line" in let n := fresh "n" in
        let uc := fresh "uc" in let row := fresh "row" in
        let vs := fresh "vs" in
        apply read_axis_Ok in H
          as (line & n & uc & row & vs & ? & _ & _ & -> & _ & ? & ? & ?)
    end.
  repeat match goal with
    | H : obj _ = _ |- _ => rewrite H in *; clear H
    end.
  cbn [unit_conversion voxel_shape with_unit_conversion with_voxel_shape] in *.
  repeat match goal with
    | H : setrow _ _ _ = Ok _ |- _ =>
        let st := fresh "stored" in
        apply setrow_stored in H as (st & -> & ? & ?)
    end.
  rewrite ?length_insert in *.
  exists line1, line0, line, row1, row0, row, stored1, stored0, stored.
  split; [congruence|]. split; [done|]. split; [|done].
  split; [|split].
  - rewrite !list_lookup_insert_ne by lia. apply list_lookup_insert_eq; lia.
  - rewrite list_lookup_insert_ne by lia.
    apply list_lookup_insert_eq. rewrite length_insert. lia.
  - apply list_lookup_insert_eq. rewrite !length_insert. lia.
Qed.

Lemma read_iterator_rows self lines u self' :
  read_iterator self lines = (Ok u, self') ->
  exists l1 l2 l3 ax ay az rest rx ry rz sx sy sz,
    lines = l1 :: l2 :: l3 :: ax :: ay :: az :: rest /\
    (np_asarray (slice (py_split ax) 1 4) = Ok rx /\
     np_asarray (slice (py_split ay) 1 4) = Ok ry /\
     np_asarray (slice (py_split az) 1 4) = Ok rz) /\
    (voxel_shape self' !! 0%nat = Some sx /\
     voxel_shape self' !! 1%nat = Some sy /\
     voxel_shape self' !! 2%nat = Some sz) /\
    (sx = rx \/ exists x, rx = [x] /\ sx = replicate (length sx) x) /\
    (sy = ry \/ exists x, ry = [x] /\ sy = replicate (length sy) x) /\
    (sz = rz \/ exists x, rz = [x] /\ sz = replicate (length sz) x).
Proof.
  unfold read_iterator.
  destruct (read_body _) as [[[]|e] s] eqn:H; [|discriminate].
  intros [= <-]. unfold read_body in H. repeat invert_ok.
  repeat match goal with
    | H : read_header _ = (Ok _, _) |- _ =>
        apply read_header_Ok in H as (l1 & l2 & Hit1 & _)
    | H : read_origin _ = (Ok ?n, _) |- _ =>
        apply read_origin_Ok in H as (l3 & o0 & Hit2 & _)
    | H : read_axes _ _ _ = (Ok _, ?s') |- _ =>
        apply read_axes_stored in H
          as (ax & ay & az & rx & ry & rz & sx & sy & sz
              & Hit3 & Hrows & Hvs & Hsx & Hsy & Hsz);
        rename s' into sa
    | H : check_square _ = (Ok _, _) |- _ =>
        apply check_square_Ok in H as [-> _]
    | H : setup_grid _ _ = (Ok _, _) |- _ =>
        apply setup_grid_Ok in H as (o & sc & _ & _ & _ & _ & Ho4)
    | H : read_atoms _ _ = (Ok _, _) |- _ =>
        apply read_atoms_Ok in H as (new & _ & _ & _ & _ & Ho5)
    | H : read_voxels _ _ = (Ok _, _) |- _ =>
        apply read_voxels_Ok in H as (flat & _ & _ & _ & Ho6)
    end.
  cbn [it obj] in *. subst self'.
  rewrite Ho6, Ho5, Ho4. cbn.
  exists l1, l2, l3, ax, ay, az, (it sa), rx, ry, rz, sx, sy, sz.
  repeat split; try tauto; congruence.
Qed.

Lemma np_multiply_length a b c :
  np_multiply a b = Ok c -> (1 < length a)%nat -> (1 < length b)%nat ->
  length a = length b /\ c = zip_with PrimFloat.mul a b.
Proof.
  unfold np_multiply. intros H Ha Hb.
  destruct (Nat.eqb_spec (length a) (length b)) as [E|E].
  - now injection H as <-.
  - destruct a as [|x [|y a]]; cbn in Ha; try lia.
    destruct b as [|x' [|y' b]]; cbn in Hb; try lia. discriminate.
Qed.

Lemma np_multiply_to3 a u0 u1 u2 c :
  np_multiply a [u0; u1; u2] = Ok c ->
  c = zip_with PrimFloat.mul (broadcast3 a) [u0; u1; u2] /\
  length (broadcast3 a) = 3%nat.
Proof.
  unfold np_multiply.
  destruct a as [|x [|y [|z [|w a]]]]; cbn; try discriminate;
    intros [= <-]; auto.
Qed.

Lemma Forall2_functional {A B} (f : A -> result B) xs ys ys' :
  Forall2 (fun x y => f x = Ok y) xs ys ->
  Forall2 (fun x y => f x = Ok y) xs ys' -> ys = ys'.
Proof.
  intros H. revert ys'. induction H; intros ys' H'; inversion H'; subst.
  - reflexivity.
  - f_equal; [congruence | auto].
Qed.

(** The object a successful [read_iterator] leaves, attribute by attribute. *)
Lemma read_iterator_Ok_record self lines u self' :
  read_iterator self lines = (Ok u, self') ->
  exists l1 l2 l3 ax ay az rest n nx ny nz rx ry rz o0 new flat,
    lines = l1 :: l2 :: l3 :: ax :: ay :: az :: rest /\
    (first_int (py_split l3) = Ok n /\
     map_result py_float (slice (py_split l3) 1 4) = Ok o0) /\
    (first_int (py_split ax) = Ok nx /\
     first_int (py_split ay) = Ok ny /\
     first_int (py_split az) = Ok nz) /\
    (np_asarray (slice (py_split ax) 1 4) = Ok rx /\
     np_asarray (slice (py_split ay) 1 4) = Ok ry /\
     np_asarray (slice (py_split az) 1 4) = Ok rz) /\
    (length (broadcast3 rx) = 3 /\ length (broadcast3 ry) = 3 /\
     length (broadcast3 rz) = 3 /\ length (broadcast3 o0) = 3)%nat /\
    non_square [broadcast3 rx; broadcast3 ry; broadcast3 rz] = Ok false /\
    ((Z.to_nat n <= length rest)%nat /\
     length new = Z.to_nat n /\
     Forall2 (fun line atom =>
                atom_of_line (unit_conversion self') line = Ok atom)
             (take (Z.to_nat n) rest) new) /\
    (np_asarray (py_split (join_empty (drop (Z.to_nat n) rest))) = Ok flat /\
     Z.of_nat (length flat) = Z.abs nx * Z.abs ny * Z.abs nz) /\
    let uc := [if nx <? 0 then 1%float else BOHR_TO_ANGSTROM;
               if ny <? 0 then 1%float else BOHR_TO_ANGSTROM;
               if nz <? 0 then 1%float else BOHR_TO_ANGSTROM] in
    let vs := [broadcast3 rx; broadcast3 ry; broadcast3 rz] in
    self' = {| filename := filename self;
               header := l1 +:+ l2;
               origin := zip_with PrimFloat.mul (broadcast3 o0) uc;
               voxel_shape := vs;
               unit_conversion := uc;
               scale := zip_with PrimFloat.mul (np_norm_rows vs) uc;
               atoms := atoms self ++ new;
               voxels := {| shape := [Z.abs nx; Z.abs ny; Z.abs nz];
                            data := flat |} |}.
Proof.
  intros H. pose proof (read_iterator_rows _ _ _ _ H)
    as (k1 & k2 & k3 & bx & by' & bz & rest' & rx' & ry' & rz' & tx & ty & tz
        & Hlines & (Hrx' & Hry' & Hrz') & (Ht0 & Ht1 & Ht2) & Htx & Hty & Htz).
  apply read_iterator_Ok in H
    as (l1 & l2 & l3 & ax & ay & az & rest & n & nx & ny & nz & rx & ry & rz
        & sx & sy & sz & o0 & new & flat & -> & (Hn & Ho0) & Hcounts
        & (Hu0 & Hu1 & Hu2) & (Hrx & Hry & Hrz) & (Hs0 & Hs1 & Hs2) & _
        & Hsq & Horigin & Hscale & (Hle & Hlen & Hall & Hatoms)
        & (Hflat & Hsize & Hv) & Hheader & Hfile).
  injection Hlines as <- <- <- <- <- <- <-.
  assert (rx' = rx) as -> by congruence.
  assert (ry' = ry) as -> by congruence.
  assert (rz' = rz) as -> by congruence.
  assert (tx = sx) as -> by congruence.
  assert (ty = sy) as -> by congruence.
  assert (tz = sz) as -> by congruence.
  pose proof (non_square_Ok_rows _ _ _ _ _ Hsq Hs0 Hs1 Hs2) as Hvs.
  (* the rows have three entries each *)
  assert (length sx = 3 /\ length sy = 3 /\ length sz = 3)%nat as (Lx & Ly & Lz).
  { revert Hsq. rewrite Hvs. unfold non_square, np_multiply2.
    destruct (bool_decide_reflect
                (map length [sx; sy; sz]
                 = map length (map (map (fun x => (1.0 - x)%float)) np_identity3)))
      as [E|]; [|discriminate].
    cbn in E. injection E as -> -> ->. auto. }
  assert (forall r s0, length s0 = 3%nat ->
            (s0 = r \/ exists x, r = [x] /\ s0 = replicate (length s0) x) ->
            s0 = broadcast3 r) as Hbc.
  { intros r s0 L [->|(x & -> & E)].
    - destruct r as [|? [|? [|? [|]]]]; cbn in L; try lia; reflexivity.
    - rewrite L in E. exact E. }
  apply Hbc in Htx; [|done]. apply Hbc in Hty; [|done]. apply Hbc in Htz; [|done].
  subst sx sy sz.
  (* the unit conversion has three entries *)
  assert (unit_conversion self'
          = [if nx <? 0 then 1%float else BOHR_TO_ANGSTROM;
             if ny <? 0 then 1%float else BOHR_TO_ANGSTROM;
             if nz <? 0 then 1%float else BOHR_TO_ANGSTROM]) as Huc.
  { rewrite Hvs in Hscale.
    apply np_multiply_length in Hscale as [L _].
    - cbn in L.
      destruct (unit_conversion self') as [|v0 [|v1 [|v2 [|v3 l]]]];
        try discriminate.
      cbn in Hu0, Hu1, Hu2.
      injection Hu0 as ->. injection Hu1 as ->. injection Hu2 as ->. reflexivity.
    - cbn. lia.
    - assert (2 < length (unit_conversion self'))%nat
        by (apply lookup_lt_is_Some; eauto). lia. }
  rewrite Huc, Hvs in *.
  apply np_multiply_to3 in Horigin as [Horigin Lo].
  apply np_multiply_length in Hscale as [_ Hscale]; [|cbn; lia|cbn; lia].
  exists l1, l2, l3, ax, ay, az, rest, n, nx, ny, nz, rx, ry, rz, o0, new, flat.
  cbn [product foldr] in Hsize.
  repeat split; try tauto; try lia.
  cbv zeta. destruct self'; cbn in *. congruence.
Qed.

End RecordFacts.

(** ** Geometry of a parsed record *)

(** X1. After a successful parse the voxel shape has three rows, the unit
    conversion three entries, and the scale of each axis is the Euclidean
    norm of its row of the voxel shape times its unit conversion. *)
Theorem scale_is_norm_times_unit `{RT : Runtime}
    (self : Cubefile) (lines : list string) (self' : Cubefile) :
  read_iterator self lines = (Ok tt, self') ->
  exists r0 r1 r2 u0 u1 u2,
    voxel_shape self' = [r0; r1; r2] /\
    unit_conversion self' = [u0; u1; u2] /\
    scale self'
    = [(PrimFloat.sqrt (fold_left PrimFloat.add (map (fun x => x * x) r0) 0) * u0)%float;
       (PrimFloat.sqrt (fold_left PrimFloat.add (map (fun x => x * x) r1) 0) * u1)%float;
       (PrimFloat.sqrt (fold_left PrimFloat.add (map (fun x => x * x) r2) 0) * u2)%float] /\
    np_multiply (np_norm_rows (voxel_shape self')) (unit_conversion self')
    = Ok (scale self').
Proof.
  intros H. apply read_iterator_Ok_record in H
    as (l1 & l2 & l3 & ax & ay & az & rest & n & nx & ny & nz & rx & ry & rz
        & o0 & new & flat & _ & _ & _ & _ & _ & _ & _ & _ & ->).
  cbn [voxel_shape unit_conversion scale].
  do 6 eexists. repeat split.
Qed.

Lemma scale_is_norm_times_unit_witness :
  scale Samples.carbon_record = [BOHR_TO_ANGSTROM; 1.5; BOHR_TO_ANGSTROM]%float.
Proof.
  destruct (scale_is_norm_times_unit (RT := PyRef.runtime)
              default_state Samples.carbon Samples.carbon_record)
    as (r0 & r1 & r2 & u0 & u1 & u2 & _).
  - vm_compute. reflexivity.
  - vm_compute. reflexivity.
Defined.

(** X2. The origin stored by a successful parse is the origin read from
    line 3 with each coordinate multiplied by the unit conversion of its
    axis, which the sign of that axis' voxel count selects; a single value
    on line 3 stands for all three coordinates. *)
Theorem origin_is_converted `{RT : Runtime}
    (self : Cubefile) (lines : list string) (self' : Cubefile) :
  read_iterator self lines = (Ok tt, self') ->
  exists l1 l2 l3 ax ay az rest nx ny nz o0 a b c,
    lines = l1 :: l2 :: l3 :: ax :: ay :: az :: rest /\
    first_int (py_split ax) = Ok nx /\
    first_int (py_split ay) = Ok ny /\
    first_int (py_split az) = Ok nz /\
    map_result py_float (slice (py_split l3) 1 4) = Ok o0 /\
    broadcast3 o0 = [a; b; c] /\
    origin self'
    = [PrimFloat.mul a (if nx <? 0 then 1%float else BOHR_TO_ANGSTROM);
       PrimFloat.mul b (if ny <? 0 then 1%float else BOHR_TO_ANGSTROM);
       PrimFloat.mul c (if nz <? 0 then 1%float else BOHR_TO_ANGSTROM)].
Proof.
  intros H. apply read_iterator_Ok_record in H
    as (l1 & l2 & l3 & ax & ay & az & rest & n & nx & ny & nz & rx & ry & rz
        & o0 & new & flat & -> & (_ & Ho0) & (Hx & Hy & Hz) & _
        & (_ & _ & _ & Lo) & _ & _ & _ & ->).
  cbn [origin].
  destruct (broadcast3 o0) as [|a [|b [|c [|d l]]]] eqn:E; try discriminate.
  exists l1, l2, l3, ax, ay, az, rest, nx, ny, nz, o0, a, b, c.
  repeat split; done.
Qed.

Lemma origin_is_converted_witness :
  origin Samples.carbon_record = [0; 0; 0]%float.
Proof.
  destruct (origin_is_converted (RT := PyRef.runtime)
              default_state Samples.carbon Samples.carbon_record)
    as (l1 & l2 & l3 & ax & ay & az & rest & nx & ny & nz & o0 & a & b & c & _).
  - vm_compute. reflexivity.
  - vm_compute. reflexivity.
Defined.

(** The attributes of the atom built from one line. *)
Lemma atom_of_line_Ok `{RT : Runtime} u0 u1 u2 line atom :
  atom_of_line [u0; u1; u2] line = Ok atom ->
  exists tok raw,
    first_int (py_split line) = Ok (element atom) /\
    py_split line !! 1%nat = Some tok /\
    py_float tok = Ok (charge atom) /\
    np_asarray (slice (py_split line) 2 5) = Ok raw /\
    length (broadcast3 raw) = 3%nat /\
    xyz atom = zip_with PrimFloat.mul (broadcast3 raw) [u0; u1; u2].
Proof.
  unfold atom_of_line, getitem. intros H. repeat invert_ok.
  destruct (py_split line !! 1%nat) as [tok|] eqn:E; [|discriminate].
  match goal with H : Ok tok = Ok _ |- _ => injection H as <- end.
  injection H as <-. cbn [element charge xyz].
  match goal with
  | H : np_multiply _ _ = Ok _ |- _ => apply np_multiply_to3 in H as [-> L]
  end.
  eauto 10.
Qed.

(** X3. Each atom a successful parse appends has the element and the
    charge read from its line, and three coordinates: the values read from
    the line, each multiplied by the unit conversion of its axis. *)
Theorem atoms_are_converted `{RT : Runtime}
    (self : Cubefile) (lines : list string) (self' : Cubefile) :
  read_iterator self lines = (Ok tt, self') ->
  exists l1 l2 l3 ax ay az rest n new,
    lines = l1 :: l2 :: l3 :: ax :: ay :: az :: rest /\
    first_int (py_split l3) = Ok n /\
    atoms self' = (atoms self ++ new)%list /\
    Forall2
      (fun line atom =>
         exists tok raw,
           first_int (py_split line) = Ok (element atom) /\
           py_split line !! 1%nat = Some tok /\
           py_float tok = Ok (charge atom) /\
           np_asarray (slice (py_split line) 2 5) = Ok raw /\
           length (xyz atom) = 3%nat /\
           xyz atom = zip_with PrimFloat.mul (broadcast3 raw) (unit_conversion self'))
      (take (Z.to_nat n) rest) new.
Proof.
  intros H. apply read_iterator_Ok_record in H
    as (l1 & l2 & l3 & ax & ay & az & rest & n & nx & ny & nz & rx & ry & rz
        & o0 & new & flat & -> & (Hn & _) & _ & _ & _ & _ & (_ & _ & Hall) & _ & ->).
  cbn [atoms unit_conversion] in *.
  exists l1, l2, l3, ax, ay, az, rest, n, new.
  repeat split; try done.
  eapply Forall2_impl; [exact Hall|].
  intros line atom Ha. cbn beta in Ha.
  apply atom_of_line_Ok in Ha as (tok & raw & ? & ? & ? & ? & L & Hxyz).
  exists tok, raw. repeat split; try done.
  rewrite Hxyz.
  destruct (broadcast3 raw) as [|? [|? [|? [|]]]]; try discriminate. reflexivity.
Qed.

Lemma atoms_are_converted_witness :
  map xyz (atoms Samples.carbon_record)
  = [[(1 * BOHR_TO_ANGSTROM); 2 * 1; (3 * BOHR_TO_ANGSTROM)]%float].
Proof.
  destruct (atoms_are_converted (RT := PyRef.runtime)
              default_state Samples.carbon Samples.carbon_record)
    as (l1 & l2 & l3 & ax & ay & az & rest & n & new & _).
  - vm_compute. reflexivity.
  - vm_compute. reflexivity.
Defined.

Lemma zip_with_mul_ones (v : list float) :
  length v = 3%nat -> zip_with PrimFloat.mul v [1; 1; 1]%float = v.
Proof.
  destruct v as [|a [|b [|c [|d v]]]]; try discriminate. intros _.
  cbn. now rewrite !float_mul_one_r.
Qed.

(** X4. When the three voxel counts are negative, the axes are in
    Angstrom and nothing is rescaled: the origin and the coordinates of
    every atom appended are exactly the values read from the lines. *)
Theorem angstrom_axes_keep_coordinates `{RT : Runtime}
    (self : Cubefile) (l1 l2 l3 ax ay az : string) (rest : list string)
    (nx ny nz n : Z) (o0 : list float) (self' : Cubefile) :
  first_int (py_split l3) = Ok n ->
  first_int (py_split ax) = Ok nx ->
  first_int (py_split ay) = Ok ny ->
  first_int (py_split az) = Ok nz ->
  nx < 0 -> ny < 0 -> nz < 0 ->
  map_result py_float (slice (py_split l3) 1 4) = Ok o0 ->
  read_iterator self (l1 :: l2 :: l3 :: ax :: ay :: az :: rest) = (Ok tt, self') ->
  unit_conversion self' = [1; 1; 1]%float /\
  origin self' = broadcast3 o0 /\
  exists new,
    atoms self' = (atoms self ++ new)%list /\
    Forall2
      (fun line atom =>
         exists raw,
           np_asarray (slice (py_split line) 2 5) = Ok raw /\
           xyz atom = broadcast3 raw)
      (take (Z.to_nat n) rest) new.
Proof.
  intros Hn Hx Hy Hz Nx Ny Nz Ho H.
  apply read_iterator_Ok_record in H
    as (k1 & k2 & k3 & bx & by' & bz & rest' & n' & nx' & ny' & nz' & rx & ry & rz
        & o0' & new & flat & [= <- <- <- <- <- <- <-] & (Hn' & Ho') & (Hx' & Hy' & Hz')
        & _ & (_ & _ & _ & Lo) & _ & (_ & _ & Hall) & _ & ->).
  assert (n' = n) as -> by congruence.
  assert (nx' = nx) as -> by congruence.
  assert (ny' = ny) as -> by congruence.
  assert (nz' = nz) as -> by congruence.
  assert (o0' = o0) as -> by congruence.
  cbn [unit_conversion origin atoms] in *.
  rewrite !(proj2 (Z.ltb_lt _ 0)) in * by lia.
  split; [reflexivity|]. split; [now apply zip_with_mul_ones|].
  exists new. split; [reflexivity|].
  eapply Forall2_impl; [exact Hall|].
  intros line atom Ha. cbn beta in Ha.
  apply atom_of_line_Ok in Ha as (tok & raw & _ & _ & _ & Hraw & L & Hxyz).
  exists raw. split; [done|]. rewrite Hxyz. now apply zip_with_mul_ones.
Qed.

Lemma angstrom_axes_keep_coordinates_witness :
  map xyz (atoms (snd (read_iterator (RT := PyRef.runtime) default_state
                         Samples.angstrom)))
  = [[1; 2; 3]%float].
Proof.
  destruct (angstrom_axes_keep_coordinates (RT := PyRef.runtime) default_state
              "carbon" "density" "1 0.5 0.5 0.5"
              "-2 1.0 0.0 0.0" "-1 0.0 1.5 0.0" "-1 0.0 0.0 1.0"
              ["6 0.0 1.0 2.0 3.0"; "1.5 2.5"]
              (-2) (-1) (-1) 1 [0.5; 0.5; 0.5]%float
              (snd (read_iterator (RT := PyRef.runtime) default_state
                      Samples.angstrom)))
    as (_ & _ & new & _); vm_compute; (reflexivity || lia).
Defined.

(** X5. The voxel shape of a successfully parsed record is a diagonal
    3 x 3 matrix: every off-diagonal entry is zero and every diagonal
    entry is finite. *)
Theorem parsed_voxel_shape_is_diagonal `{RT : Runtime}
    (self : Cubefile) (lines : list string) (self' : Cubefile) :
  read_iterator self lines = (Ok tt, self') ->
  exists a b c d e f g h i,
    voxel_shape self' = [[a; b; c]; [d; e; f]; [g; h; i]] /\
    existsb nonzero [b; c; d; f; g; h] = false /\
    forallb PrimFloat.is_finite [a; e; i] = true.
Proof.
  intros H. apply read_iterator_Ok_record in H
    as (l1 & l2 & l3 & ax & ay & az & rest & n & nx & ny & nz & rx & ry & rz
        & o0 & new & flat & _ & _ & _ & _ & (Lx & Ly & Lz & _) & Hsq & _ & _ & ->).
  cbn [voxel_shape].
  destruct (broadcast3 rx) as [|a [|b [|c [|? ?]]]]; try discriminate.
  destruct (broadcast3 ry) as [|d [|e [|f [|? ?]]]]; try discriminate.
  destruct (broadcast3 rz) as [|g [|h [|i [|? ?]]]]; try discriminate.
  exists a, b, c, d, e, f, g, h, i. split; [reflexivity|].
  rewrite non_square_3x3 in Hsq. injection Hsq as Hsq.
  apply orb_false_elim in Hsq as [Hoff Hfin].
  split; [exact Hoff|]. now apply negb_false_iff in Hfin.
Qed.

Lemma parsed_voxel_shape_is_diagonal_witness :
  voxel_shape Samples.carbon_record = [[1; 0; 0]; [0; 1.5; 0]; [0; 0; 1]]%float.
Proof.
  destruct (parsed_voxel_shape_is_diagonal (RT := PyRef.runtime)
              default_state Samples.carbon Samples.carbon_record)
    as (a & b & c & d & e & f & g & h & i & _).
  - vm_compute. reflexivity.
  - vm_compute. reflexivity.
Defined.

(** X6. A stream with fewer than six lines, or with fewer lines after
    the sixth than the atom count found on line 3, cannot be parsed. *)
Theorem truncated_stream_fails `{RT : Runtime}
    (self : Cubefile) (lines : list string) :
  (length lines < 6)%nat \/
  (exists l1 l2 l3 tail n,
     lines = l1 :: l2 :: l3 :: tail /\
     first_int (py_split l3) = Ok n /\
     (length tail < 3 + Z.to_nat n)%nat) ->
  is_ok (fst (read_iterator self lines)) = false.
Proof.
  intros Hshort.
  destruct (read_iterator self lines) as [[[]|e] self'] eqn:H; [exfalso|reflexivity].
  apply read_iterator_Ok in H
    as (l1 & l2 & l3 & ax & ay & az & rest & n & nx & ny & nz & rx & ry & rz
        & sx & sy & sz & o0 & new & flat & -> & (Hn & _) & _ & _ & _ & _ & _
        & _ & _ & _ & (Hle & _) & _).
  destruct Hshort as [Hshort|(k1 & k2 & k3 & tail & n' & [= <- <- <- <-] & Hn' & Hshort)].
  - cbn in Hshort. lia.
  - assert (n' = n) as -> by congruence. cbn in Hshort. lia.
Qed.

Lemma truncated_stream_fails_witness :
  is_ok (fst (read_iterator (RT := PyRef.runtime) default_state Samples.truncated))
  = false.
Proof.
  apply truncated_stream_fails. right.
  exists "carbon", "density", "2 0.0 0.0 0.0",
    ["2 1.0 0.0 0.0"; "-1 0.0 1.5 0.0"; "1 0.0 0.0 1.0"; "6 0.0 1.0 2.0 3.0"], 2.
  vm_compute. repeat split. lia.
Defined.

(** X7. Parsing into an object that already holds data gives what parsing
    the same lines into a new object gives, except that the atoms already
    present stay in front of the new ones and the file name is kept. *)
Theorem reparse_differs_by_old_atoms `{RT : Runtime}
    (self : Cubefile) (lines : list string) (self' fresh : Cubefile) :
  read_iterator self lines = (Ok tt, self') ->
  read_iterator default_state lines = (Ok tt, fresh) ->
  self' = with_filename (filename self)
            (with_atoms (atoms self ++ atoms fresh) fresh).
Proof.
  intros H1 H2.
  apply read_iterator_Ok_record in H1
    as (l1 & l2 & l3 & ax & ay & az & rest & n & nx & ny & nz & rx & ry & rz
        & o0 & new & flat & -> & (Hn & Ho) & (Hx & Hy & Hz) & (Hrx & Hry & Hrz)
        & _ & _ & (_ & _ & Hall) & (Hflat & _) & ->).
  apply read_iterator_Ok_record in H2
    as (k1 & k2 & k3 & bx & by' & bz & rest' & n' & nx' & ny' & nz' & rx' & ry' & rz'
        & o0' & new' & flat' & [= <- <- <- <- <- <- <-] & (Hn' & Ho')
        & (Hx' & Hy' & Hz') & (Hrx' & Hry' & Hrz')
        & _ & _ & (_ & _ & Hall') & (Hflat' & _) & ->).
  assert (n' = n) as -> by congruence.
  assert (nx' = nx) as -> by congruence.
  assert (ny' = ny) as -> by congruence.
  assert (nz' = nz) as -> by congruence.
  assert (o0' = o0) as -> by congruence.
  assert (rx' = rx) as -> by congruence.
  assert (ry' = ry) as -> by congruence.
  assert (rz' = rz) as -> by congruence.
  assert (flat' = flat) as -> by congruence.
  cbn [unit_conversion] in Hall, Hall'.
  rewrite (Forall2_functional _ _ _ _ Hall' Hall).
  reflexivity.
Qed.

Lemma reparse_differs_by_old_atoms_witness :
  map element
      (atoms (snd (read_iterator (RT := PyRef.runtime) Samples.carbon_record
                     Samples.oxygen)))
  = [6; 8].
Proof.
  rewrite (reparse_differs_by_old_atoms (RT := PyRef.runtime)
             Samples.carbon_record Samples.oxygen
             (snd (read_iterator (RT := PyRef.runtime) Samples.carbon_record
                     Samples.oxygen))
             (snd (read_iterator (RT := PyRef.runtime) default_state
                     Samples.oxygen))).
  - vm_compute. reflexivity.
  - vm_compute. reflexivity.
  - vm_compute. reflexivity.
Defined.

(** ** [read] *)

Lemma read_iterator_Raise `{RT : Runtime} self lines e self' :
  read_iterator self lines = (Raise e, self') ->
  self' = default_state /\ exists cause, e = reading_error cause.
Proof.
  unfold read_iterator.
  destruct (read_body _) as [[u|cause] s]; [discriminate|].
  intros [= <- <-]. eauto.
Qed.

Lemma read_iterator_unit `{RT : Runtime} self lines (u : unit) self' :
  read_iterator self lines = (Ok u, self') ->
  read_iterator self lines = (Ok tt, self').
Proof. now destruct u. Qed.

Lemma read_iterator_Raise_cause `{RT : Runtime} self lines e self' :
  read_iterator self lines = (Raise e, self') ->
  self' = default_state /\
  exists kind args context,
    fst (read_body {| obj := self; it := lines |}) = Raise (Exn kind args context) /\
    e = Exn ValueError (VStr "Error reading file" :: args)
          (Some (Exn kind args context)).
Proof.
  unfold read_iterator.
  destruct (read_body _) as [[u|[kind args context]] s]; [discriminate|].
  intros [= <- <-]. split; [reflexivity|]. now exists kind, args, context.
Qed.

(** X8. Every exception [read] raises is a [ValueError], and it is raised
    only after the content of the file the source names, if there is one,
    has failed to parse.  Let the start object be the object as it was if
    no file was tried, and the reset object otherwise.  For a text source
    the exception is the parse failure of the lines of the text on the
    start object: its arguments are ["Error reading file"] followed by the
    arguments of the exception the body of the [try] block raised, which is
    its context, and the object is reset.  For a list the exception is the
    ["Could not read"] error without context, parsing the items on the
    start object has failed, and the object is reset.  For a source that
    cannot be iterated it is the same error and the object is the start
    object. *)
Theorem read_failure `{RT : Runtime} (fs : pyval -> option (list string))
    (self : Cubefile) (src : pyval) (e : exn) (self' : Cubefile) :
  read fs self src = (Raise e, self') ->
  let start := match fs src with Some _ => default_state | None => self end in
  (exists args context, e = Exn ValueError args context) /\
  (forall content, fs src = Some content ->
     is_ok (fst (read_iterator (with_filename (Some src) self) content)) = false) /\
  match src with
  | VStr s =>
      self' = default_state /\
      exists kind args context,
        fst (read_body {| obj := start; it := splitlines s |})
          = Raise (Exn kind args context) /\
        e = Exn ValueError (VStr "Error reading file" :: args)
              (Some (Exn kind args context))
  | VList items =>
      self' = default_state /\
      is_ok (fst (read_iterator start items)) = false /\
      e = Exn ValueError [VStr "Could not read"; src] None
  | _ =>
      self' = start /\ e = Exn ValueError [VStr "Could not read"; src] None
  end.
Proof.
  intros H start. unfold read, read_other in H.
  assert (exists s0,
            s0 = start /\
            (forall content, fs src = Some content ->
               is_ok (fst (read_iterator (with_filename (Some src) self) content))
               = false) /\
            match src with
            | VStr s => read_iterator s0 (splitlines s)
            | _ =>
                match py_iter src with
                | Raise _ => (Raise (could_not_read src), s0)
                | Ok lines =>
                    match read_iterator s0 lines with
                    | (Ok r, s1) => (Ok r, s1)
                    | (Raise _, s1) => (Raise (could_not_read src), s1)
                    end
                end
            end = (Raise e, self')) as (s0 & -> & Hfile & Hrun).
  { subst start. destruct (fs src) as [content|].
    - destruct (read_iterator (with_filename (Some src) self) content)
        as [[u|e1] s1] eqn:H1; [discriminate|].
      apply read_iterator_Raise in H1 as Hs1. destruct Hs1 as [-> _].
      exists default_state. split; [reflexivity|]. split; [|exact H].
      intros c [= <-]. now rewrite H1.
    - exists self. split; [reflexivity|]. split; [discriminate|exact H]. }
  clear H. split; [|split; [exact Hfile|]].
  - destruct src; cbn [py_iter] in Hrun;
      try (injection Hrun as <- <-; unfold could_not_read; eauto).
    + apply read_iterator_Raise_cause in Hrun
        as [_ (kind & args & context & _ & ->)]. eauto.
    + destruct (read_iterator start lines) as [[u|e2] s2]; [discriminate|].
      injection Hrun as <- <-. unfold could_not_read. eauto.
  - destruct src; cbn [py_iter] in Hrun;
      try (injection Hrun as <- <-; split; reflexivity).
    + apply read_iterator_Raise_cause in Hrun as [-> Hc]. split; [reflexivity|exact Hc].
    + destruct (read_iterator start lines) as [[u|e2] s2] eqn:H2; [discriminate|].
      apply read_iterator_Raise in H2 as [-> _].
      injection Hrun as <- <-. repeat split.
Qed.

Lemma read_failure_witness :
  fst (read_body (RT := PyRef.runtime)
         {| obj := Samples.carbon_record;
            it := splitlines (Samples.file_text Samples.sheared) |})
    = Raise (Exn ValueError [VStr "Non square voxel shape."] None) /\
  snd (read (RT := PyRef.runtime) Samples.two_files Samples.carbon_record
         (VStr (Samples.file_text Samples.sheared)))
    = default_state.
Proof.
  assert (read (RT := PyRef.runtime) Samples.two_files Samples.carbon_record
            (VStr (Samples.file_text Samples.sheared))
          = (Raise (Exn ValueError
                      [VStr "Error reading file"; VStr "Non square voxel shape."]
                      (Some (Exn ValueError [VStr "Non square voxel shape."] None))),
             default_state)) as H
    by (vm_compute; reflexivity).
  assert (Samples.two_files (VStr (Samples.file_text Samples.sheared)) = None)
    as Hfs by (vm_compute; reflexivity).
  pose proof (read_failure _ _ _ _ _ H) as P. cbv zeta in P. cbn beta iota in P.
  rewrite Hfs in P.
  destruct P as (_ & _ & _ & kind & args & context & Hbody & He).
  inversion He; subst. split; [exact Hbody|].
  rewrite H. reflexivity.
Defined.

(** The runs of [read_iterator] behind a successful [read]. *)
Lemma read_Ok_cases `{RT : Runtime} (fs : pyval -> option (list string))
    (self : Cubefile) (src : pyval) (self' : Cubefile) :
  read fs self src = (Ok tt, self') ->
  (exists lines,
     fs src = Some lines /\
     read_iterator (with_filename (Some src) self) lines = (Ok tt, self') /\
     filename self' = Some src) \/
  (exists lines,
     match src with
     | VStr s => lines = splitlines s
     | VList items => lines = items
     | _ => False
     end /\
     ((fs src = None /\
       read_iterator self lines = (Ok tt, self') /\
       filename self' = filename self) \/
      (exists content,
         fs src = Some content /\
         is_ok (fst (read_iterator (with_filename (Some src) self) content)) = false /\
         read_iterator default_state lines = (Ok tt, self') /\
         filename self' = None))).
Proof.
  assert (forall s0 lines s1, read_iterator s0 lines = (Ok tt, s1) ->
            filename s1 = filename s0) as Hfile.
  { intros s0 lines s1 H. apply read_iterator_Ok in H
      as (l1 & l2 & l3 & ax & ay & az & rest & n & nx & ny & nz & rx & ry & rz
          & sx & sy & sz & o0 & new & flat & _ & _ & _ & _ & _ & _ & _ & _ & _
          & _ & _ & _ & _ & Hf). exact Hf. }
  unfold read, read_other. intros H.
  destruct (fs src) as [content|] eqn:Hfs.
  - destruct (read_iterator (with_filename (Some src) self) content)
      as [[[]|e1] s1] eqn:H1.
    + injection H as <-. left. exists content.
      split; [done|]. split; [done|]. now rewrite (Hfile _ _ _ H1).
    + destruct (read_iterator_Raise _ _ _ _ H1) as [-> _]. right.
      destruct src; cbn [py_iter] in H; try discriminate.
      * exists (splitlines s). split; [done|]. right. exists content.
        rewrite (Hfile _ _ _ H), H1. auto.
      * destruct (read_iterator default_state lines) as [[[]|e2] s2] eqn:H2;
          [|discriminate].
        injection H as <-. exists lines. split; [done|]. right. exists content.
        rewrite (Hfile _ _ _ H2), H1. auto.
  - right. destruct src; cbn [py_iter] in H; try discriminate.
    + exists (splitlines s). split; [done|]. left.
      rewrite (Hfile _ _ _ H). auto.
    + destruct (read_iterator self lines) as [[[]|e2] s2] eqn:H2; [|discriminate].
      injection H as <-. exists lines. split; [done|]. left.
      rewrite (Hfile _ _ _ H2). auto.
Qed.

(** X9. A successful [read] has either parsed the file named by the
    source, and then the source is the file name of the object; or it has
    parsed the lines of a text or the items of an iterable.  In the second
    case the file name is what it was if no file was tried, and [None] if a
    file was tried and its content did not parse. *)
Theorem read_success `{RT : Runtime} (fs : pyval -> option (list string))
    (self : Cubefile) (src : pyval) (self' : Cubefile) :
  read fs self src = (Ok tt, self') ->
  (exists lines,
     fs src = Some lines /\
     read_iterator (with_filename (Some src) self) lines = (Ok tt, self') /\
     filename self' = Some src) \/
  (exists lines,
     match src with
     | VStr s => lines = splitlines s
     | VList items => lines = items
     | _ => False
     end /\
     ((fs src = None /\
       read_iterator self lines = (Ok tt, self') /\
       filename self' = filename self) \/
      (exists content,
         fs src = Some content /\
         is_ok (fst (read_iterator (with_filename (Some src) self) content)) = false /\
         read_iterator default_state lines = (Ok tt, self') /\
         filename self' = None))).
Proof. apply read_Ok_cases. Qed.

Lemma read_success_witness :
  filename (snd (read (RT := PyRef.runtime) Samples.two_files default_state
                   (VStr "carbon.cube")))
  = Some (VStr "carbon.cube").
Proof.
  destruct (read_success (RT := PyRef.runtime) Samples.two_files default_state
              (VStr "carbon.cube")
              (snd (read (RT := PyRef.runtime) Samples.two_files default_state
                      (VStr "carbon.cube"))))
    as [(lines & _ & _ & H)|(lines & _ & [(H & _)|(content & H & F & _)])].
  - vm_compute. reflexivity.
  - exact H.
  - vm_compute in H. discriminate.
  - vm_compute in H. injection H as <-. vm_compute in F. discriminate.
Defined.

(** ** Construction *)

Lemma read_iterator_shapes `{RT : Runtime} self lines self' :
  read_iterator self lines = (Ok tt, self') ->
  Forall (fun atom => length (xyz atom) = 3%nat) (atoms self) ->
  length (origin self') = 3%nat /\
  map length (voxel_shape self') = [3; 3; 3]%nat /\
  length (unit_conversion self') = 3%nat /\
  length (scale self') = 3%nat /\
  Forall (fun u => u = 1%float \/ u = BOHR_TO_ANGSTROM) (unit_conversion self') /\
  Forall (fun atom => length (xyz atom) = 3%nat) (atoms self') /\
  length (voxel_count self') = 3%nat /\
  Forall (fun d => 0 <= d) (voxel_count self') /\
  Z.of_nat (length (data (voxels self'))) = voxel_total self'.
Proof.
  intros H Hold. apply read_iterator_Ok_record in H
    as (l1 & l2 & l3 & ax & ay & az & rest & n & nx & ny & nz & rx & ry & rz
        & o0 & new & flat & _ & _ & _ & _ & (Lx & Ly & Lz & Lo) & _
        & (_ & _ & Hall) & (_ & Hsize) & ->).
  cbn [origin voxel_shape unit_conversion scale atoms voxels] in *.
  unfold voxel_count, voxel_total, size. cbn [voxels shape data product foldr].
  destruct (broadcast3 o0) as [|? [|? [|? [|]]]]; try discriminate.
  split; [reflexivity|]. split; [cbn; congruence|].
  split; [reflexivity|]. split; [reflexivity|].
  split.
  { repeat (apply Forall_cons; split;
              [match goal with |- context [?c <? 0] => destruct (c <? 0); auto end|]).
    apply Forall_nil_2. }
  split.
  { apply Forall_app. split; [exact Hold|].
    clear -Hall. induction Hall as [|line atom ? ? Ha]; constructor; [|done].
    apply atom_of_line_Ok in Ha as (tok & raw & _ & _ & _ & _ & L & ->).
    destruct (broadcast3 raw) as [|? [|? [|? [|]]]]; try discriminate. reflexivity. }
  split; [reflexivity|].
  split; [repeat (apply Forall_cons; split; [lia|]); apply Forall_nil_2|]. lia.
Qed.

(** X10. Every object the constructor returns, for whatever source, holds
    arrays of the expected shapes: an origin, a unit conversion and a scale
    of three entries, a voxel shape of 3 x 3, atoms with three coordinates
    each, unit conversions that are 1.0 or the Bohr constant, and a voxel
    array that is either the empty one-dimensional array or has three
    non-negative dimensions, with as many values as the dimensions ask. *)
Theorem constructed_object_is_well_shaped `{RT : Runtime}
    (fs : pyval -> option (list string)) (src : pyval) (self : Cubefile) :
  init fs src = (Ok tt, self) ->
  length (origin self) = 3%nat /\
  map length (voxel_shape self) = [3; 3; 3]%nat /\
  length (unit_conversion self) = 3%nat /\
  length (scale self) = 3%nat /\
  Forall (fun u => u = 1%float \/ u = BOHR_TO_ANGSTROM) (unit_conversion self) /\
  Forall (fun atom => length (xyz atom) = 3%nat) (atoms self) /\
  (voxel_count self = [0] \/ length (voxel_count self) = 3%nat) /\
  Forall (fun d => 0 <= d) (voxel_count self) /\
  Z.of_nat (length (data (voxels self))) = voxel_total self.
Proof.
  unfold init. destruct (truthy src).
  - intros H.
    assert (exists s0 lines,
              atoms s0 = [] /\ read_iterator s0 lines = (Ok tt, self))
      as (s0 & lines & Hnil & Hrun).
    { apply read_Ok_cases in H
        as [(lines & _ & H & _)
           |(lines & _ & [(_ & H & _)|(content & _ & _ & H & _)])];
        (eexists _, _; split; [|exact H]; reflexivity). }
    apply read_iterator_shapes in Hrun; [|rewrite Hnil; constructor].
    intuition.
  - intros [= <-]. cbn.
    repeat split; auto;
      repeat (apply Forall_cons; split; [auto; lia|]); apply Forall_nil_2.
Qed.

Lemma constructed_object_is_well_shaped_witness :
  voxel_count (snd (init (RT := PyRef.runtime) Samples.two_files (VStr "carbon.cube")))
  = [2; 1; 1].
Proof.
  destruct (constructed_object_is_well_shaped (RT := PyRef.runtime)
              Samples.two_files (VStr "carbon.cube")
              (snd (init (RT := PyRef.runtime) Samples.two_files
                      (VStr "carbon.cube")))) as (_ & _).
  - vm_compute. reflexivity.
  - vm_compute. reflexivity.
Defined.

(** ** [max_voxel_val] *)

Section FloatOrder.

Lemma key_le_refl k : key_le k k.
Proof. destruct k as [[c e] m]. cbn. lia. Qed.

Lemma key_le_trans a b c : key_le a b -> key_le b c -> key_le a c.
Proof.
  destruct a as [[? ?] ?], b as [[? ?] ?], c as [[? ?] ?]. cbn. lia.
Qed.

Lemma SFcompare_finite_key sx mx ex sy my ey :
  SFcompare (S754_finite sx mx ex) (S754_finite sy my ey)
  = Some (match sx, sy with
          | true, false => Lt
          | false, true => Gt
          | false, false =>
              match ex ?= ey with Lt => Lt | Gt => Gt | Eq => (mx ?= my)%positive end
          | true, true =>
              match ex ?= ey with Lt => Gt | Gt => Lt | Eq => CompOpp (mx ?= my)%positive end
          end).
Proof. reflexivity. Qed.

Lemma SFleb_key x y :
  x <> S754_nan -> y <> S754_nan ->
  (SFleb x y = true <-> key_le (SFkey x) (SFkey y)).
Proof.
  intros Hx Hy. unfold SFleb.
  destruct x as [sx|sx| |sx mx ex]; [| |done|];
    (destruct y as [sy|sy| |sy my ey]; [| |done|]);
    try rewrite SFcompare_finite_key;
    destruct sx, sy; cbn;
    try destruct (Z.compare_spec ex ey);
    try destruct (Pos.compare_spec mx my);
    cbn; split; intros; try discriminate; try reflexivity; try lia.
Qed.

Lemma SFltb_false_key x y :
  x <> S754_nan -> y <> S754_nan ->
  SFltb x y = false -> key_le (SFkey y) (SFkey x).
Proof.
  intros Hx Hy. unfold SFltb.
  destruct x as [sx|sx| |sx mx ex]; [| |done|];
    (destruct y as [sy|sy| |sy my ey]; [| |done|]);
    try rewrite SFcompare_finite_key;
    destruct sx, sy; cbn;
    try destruct (Z.compare_spec ex ey);
    try destruct (Pos.compare_spec mx my);
    cbn; intros; try discriminate; try lia.
Qed.

Lemma SFltb_true_key x y :
  SFltb x y = true -> key_le (SFkey x) (SFkey y).
Proof.
  unfold SFltb.
  destruct x as [sx|sx| |sx mx ex]; [| |discriminate|];
    (destruct y as [sy|sy| |sy my ey]; [| |cbn; discriminate|]);
    try rewrite SFcompare_finite_key;
    destruct sx, sy; cbn;
    try destruct (Z.compare_spec ex ey);
    try destruct (Pos.compare_spec mx my);
    cbn; intros; try discriminate; try lia.
Qed.

Lemma is_nan_Prim2SF (x : float) :
  PrimFloat.is_nan x = false <-> Prim2SF x <> S754_nan.
Proof.
  unfold PrimFloat.is_nan. rewrite FloatAxioms.eqb_spec. unfold SFeqb.
  destruct (Prim2SF x) as [s|s| |s m e]; cbn.
  - split; [discriminate|reflexivity].
  - destruct s; (split; [discriminate|reflexivity]).
  - split; [discriminate|congruence].
  - rewrite Z.compare_refl.
    change (PosDef.Pos.compare_cont Eq m m) with (Pos.compare_cont Eq m m).
    rewrite Pos.compare_cont_refl.
    destruct s; (split; [discriminate|reflexivity]).
Qed.

Lemma is_nan_abs (x : float) :
  PrimFloat.is_nan (PrimFloat.abs x) = PrimFloat.is_nan x.
Proof.
  destruct (PrimFloat.is_nan x) eqn:E.
  - destruct (PrimFloat.is_nan (abs x)) eqn:F; [reflexivity|].
    apply is_nan_Prim2SF in F. rewrite abs_spec in F.
    assert (PrimFloat.is_nan x = false); [|congruence].
    apply is_nan_Prim2SF. now destruct (Prim2SF x).
  - apply is_nan_Prim2SF. rewrite abs_spec.
    apply is_nan_Prim2SF in E. now destruct (Prim2SF x).
Qed.

Lemma leb_key (x y : float) :
  PrimFloat.is_nan x = false -> PrimFloat.is_nan y = false ->
  (PrimFloat.leb x y = true <-> float_le x y).
Proof.
  intros Hx Hy. rewrite leb_spec. apply SFleb_key; now apply is_nan_Prim2SF.
Qed.

(** The larger of two values that are not NaN. *)
Lemma np_maximum_upper (x y : float) :
  PrimFloat.is_nan x = false -> PrimFloat.is_nan y = false ->
  PrimFloat.is_nan (np_maximum x y) = false /\
  float_le x (np_maximum x y) /\ float_le y (np_maximum x y).
Proof.
  intros Hx Hy. unfold np_maximum. rewrite Hx, Hy, ltb_spec.
  destruct (SFltb (Prim2SF x) (Prim2SF y)) eqn:E.
  - split; [done|]. split; [|apply key_le_refl]. now apply SFltb_true_key.
  - split; [done|]. split; [apply key_le_refl|].
    apply SFltb_false_key; [now apply is_nan_Prim2SF..|done].
Qed.

Lemma fold_maximum_upper (xs : list float) : forall x,
  PrimFloat.is_nan x = false ->
  forallb (fun v => negb (PrimFloat.is_nan v)) xs = true ->
  let m := fold_left np_maximum xs x in
  PrimFloat.is_nan m = false /\ float_le x m /\
  Forall (fun v => float_le v m) xs /\ In m (x :: xs).
Proof.
  induction xs as [|y xs IH]; intros x Hx Hall; cbn [fold_left].
  - cbn. repeat split; auto. apply key_le_refl.
  - cbn in Hall. apply andb_prop in Hall as [Hy Hall].
    apply negb_true_iff in Hy.
    destruct (np_maximum_upper x y Hx Hy) as (Hm & Hxm & Hym).
    destruct (IH _ Hm Hall) as (Hn & Hle & Hrest & Hin).
    split; [done|]. split; [eapply key_le_trans; eauto|].
    split.
    + constructor; [eapply key_le_trans; eauto | done].
    + destruct Hin as [Hin|Hin]; [|right; now right].
      rewrite <- Hin. unfold np_maximum. rewrite Hx, Hy.
      destruct (PrimFloat.ltb x y); [right; now left | now left].
Qed.

Lemma fold_maximum_nan (xs : list float) : forall x,
  PrimFloat.is_nan (fold_left np_maximum xs x)
  = PrimFloat.is_nan x || existsb PrimFloat.is_nan xs.
Proof.
  induction xs as [|y xs IH]; intro x; cbn [fold_left existsb].
  - now rewrite orb_false_r.
  - rewrite IH. unfold np_maximum.
    destruct (PrimFloat.is_nan x) eqn:Hx; [now rewrite Hx|].
    destruct (PrimFloat.is_nan y) eqn:Hy; [now rewrite Hy|].
    destruct (PrimFloat.ltb x y); now rewrite ?Hx, ?Hy.
Qed.

End FloatOrder.

(** X11. When no voxel is NaN, [max_voxel_val] returns the largest
    absolute value of the grid: it is the absolute value of some voxel, it
    is not NaN, and the absolute value of every voxel is less than or equal
    to it. *)
Theorem max_voxel_val_is_largest (self : Cubefile) (m : float) :
  max_voxel_val self = Ok m ->
  forallb (fun v => negb (PrimFloat.is_nan v)) (data (voxels self)) = true ->
  PrimFloat.is_nan m = false /\
  (exists v, In v (data (voxels self)) /\ m = PrimFloat.abs v) /\
  forall v, In v (data (voxels self)) -> PrimFloat.leb (PrimFloat.abs v) m = true.
Proof.
  unfold max_voxel_val, np_abs_max. intros H Hall.
  set (vs := data (voxels self)) in *.
  assert (forallb (fun v => negb (PrimFloat.is_nan v)) (map PrimFloat.abs vs) = true)
    as Habs.
  { clear H. induction vs as [|v vs IH]; [reflexivity|].
    cbn in Hall |- *. apply andb_prop in Hall as [Hv Hall].
    rewrite is_nan_abs, Hv. now apply IH. }
  destruct (map PrimFloat.abs vs) as [|x xs] eqn:E; [discriminate|].
  injection H as <-. cbn in Habs. apply andb_prop in Habs as [Hx Hxs].
  apply negb_true_iff in Hx.
  destruct (fold_maximum_upper xs x Hx Hxs) as (Hn & Hle & Hrest & Hin).
  split; [done|]. split.
  - rewrite <- E in Hin. apply in_map_iff in Hin as (v & <- & Hv). eauto.
  - intros v Hv.
    assert (In (PrimFloat.abs v) (x :: xs)) as Hin'
      by (rewrite <- E; now apply in_map).
    assert (float_le (PrimFloat.abs v) (fold_left np_maximum xs x)) as L.
    { destruct Hin' as [<-|Hin']; [done|].
      rewrite Forall_forall in Hrest. apply Hrest. now apply list_elem_of_In. }
    assert (PrimFloat.is_nan (PrimFloat.abs v) = false) as Hnv.
    { rewrite is_nan_abs. apply negb_true_iff.
      rewrite forallb_forall in Hall. now apply Hall. }
    now apply (proj2 (leb_key _ _ Hnv Hn)).
Qed.

Lemma max_voxel_val_is_largest_witness :
  max_voxel_val Samples.carbon_record = Ok 2.5%float /\
  PrimFloat.leb (PrimFloat.abs 1.5) 2.5 = true.
Proof.
  assert (max_voxel_val Samples.carbon_record = Ok 2.5%float) as H by reflexivity.
  split; [exact H|].
  destruct (max_voxel_val_is_largest _ _ H) as (_ & _ & Hle); [reflexivity|].
  apply (Hle 1.5%float). vm_compute. auto.
Defined.

(** X12. [max_voxel_val] is NaN exactly when some voxel is NaN. *)
Theorem max_voxel_val_nan (self : Cubefile) (m : float) :
  max_voxel_val self = Ok m ->
  PrimFloat.is_nan m = existsb PrimFloat.is_nan (data (voxels self)).
Proof.
  unfold max_voxel_val, np_abs_max. intros H.
  assert (existsb PrimFloat.is_nan (map PrimFloat.abs (data (voxels self)))
          = existsb PrimFloat.is_nan (data (voxels self))) as E.
  { clear H. generalize (data (voxels self)). intro l.
    induction l as [|v vs IH]; [reflexivity|].
    cbn [map existsb]. now rewrite is_nan_abs, IH. }
  destruct (map PrimFloat.abs (data (voxels self))) as [|x xs]; [discriminate|].
  injection H as <-. rewrite fold_maximum_nan. exact E.
Qed.

Lemma max_voxel_val_nan_witness :
  PrimFloat.is_nan 2.5 = false.
Proof.
  rewrite (max_voxel_val_nan Samples.carbon_record 2.5%float); reflexivity.
Defined.

(** ** [__str__] *)

(** X13. The description of a successfully parsed object names the three
    absolute voxel counts, joined by the multiplication sign, and the file
    name if the object has one that is true; [__repr__] gives the same
    text. *)
Theorem description_after_parse `{RT : Runtime} (py_str : pyval -> string)
    (self : Cubefile) (lines : list string) (self' : Cubefile) :
  read_iterator self lines = (Ok tt, self') ->
  exists l1 l2 l3 ax ay az rest nx ny nz,
    lines = l1 :: l2 :: l3 :: ax :: ay :: az :: rest /\
    first_int (py_split ax) = Ok nx /\
    first_int (py_split ay) = Ok ny /\
    first_int (py_split az) = Ok nz /\
    __repr__ py_str self' = __str__ py_str self' /\
    __str__ py_str self'
    = "Cubefile.Cubefile with "
        +:+ (str_int (Z.abs nx) +:+ times +:+ str_int (Z.abs ny) +:+ times
               +:+ str_int (Z.abs nz))
        +:+ match filename self with
            | Some v =>
                if truthy v then " voxels, loaded from " +:+ py_str v +:+ "."
                else " voxels."
            | None => " voxels."
            end.
Proof.
  intros H. apply read_iterator_Ok_record in H
    as (l1 & l2 & l3 & ax & ay & az & rest & n & nx & ny & nz & rx & ry & rz
        & o0 & new & flat & -> & _ & (Hx & Hy & Hz) & _ & _ & _ & _ & _ & ->).
  exists l1, l2, l3, ax, ay, az, rest, nx, ny, nz.
  do 5 (split; [done|]).
  unfold __str__, has_filename. cbn [filename voxels shape map py_join].
  destruct (filename self) as [v|]; [destruct (truthy v)|]; reflexivity.
Qed.

Lemma description_after_parse_witness :
  __str__ PyRef.str_of
    (snd (read (RT := PyRef.runtime) Samples.two_files default_state
            (VStr "carbon.cube")))
  = "Cubefile.Cubefile with 2" +:+ times +:+ "1" +:+ times
      +:+ "1 voxels, loaded from carbon.cube.".
Proof.
  destruct (description_after_parse (RT := PyRef.runtime) PyRef.str_of
              (with_filename (Some (VStr "carbon.cube")) default_state)
              (Samples.file_lines Samples.carbon)
              (snd (read (RT := PyRef.runtime) Samples.two_files default_state
                      (VStr "carbon.cube"))))
    as (l1 & l2 & l3 & ax & ay & az & rest & nx & ny & nz & _).
  - vm_compute. reflexivity.
  - vm_compute. reflexivity.
Defined.

(** X14. After a failed parse the description is that of an empty
    object, whatever the object held and whatever file name it had. *)
Theorem description_after_failure `{RT : Runtime} (py_str : pyval -> string)
    (self : Cubefile) (lines : list string) (e : exn) (self' : Cubefile) :
  read_iterator self lines = (Raise e, self') ->
  __str__ py_str self' = "Cubefile.Cubefile with 0 voxels.".
Proof.
  intros H. apply read_iterator_Raise in H as [-> _]. reflexivity.
Qed.

Lemma description_after_failure_witness :
  __str__ PyRef.str_of
    (snd (read_iterator (RT := PyRef.runtime) Samples.carbon_record Samples.truncated))
  = "Cubefile.Cubefile with 0 voxels.".
Proof.
  apply (description_after_failure (RT := PyRef.runtime) PyRef.str_of
           Samples.carbon_record Samples.truncated
           (reading_error (Exn StopIteration [] None))).
  vm_compute. reflexivity.
Defined.

(** ** Running the parser forwards *)

Section Forward.
Context `{RT : Runtime}.

Lemma read_header_run s l1 l2 r :
  it s = l1 :: l2 :: r ->
  read_header s = (Ok tt, {| obj := with_header (l1 +:+ l2) (obj s); it := r |}).
Proof.
  intros H. unfold read_header, bind, next, modify. rewrite H. reflexivity.
Qed.

Lemma read_origin_run s l3 r n o0 :
  it s = l3 :: r ->
  first_int (py_split l3) = Ok n ->
  map_result py_float (slice (py_split l3) 1 4) = Ok o0 ->
  read_origin s = (Ok n, {| obj := with_origin o0 (obj s); it := r |}).
Proof.
  intros H Hn Ho. unfold read_origin, bind, next, lift, modify, ret.
  rewrite H. cbn [it obj]. rewrite Hn, Ho. reflexivity.
Qed.

Lemma read_axis_run vc i s line r c row vs' :
  it s = line :: r ->
  first_int (py_split line) = Ok c ->
  (i < length vc)%nat ->
  (i < length (unit_conversion (obj s)))%nat ->
  np_asarray (slice (py_split line) 1 4) = Ok row ->
  setrow (voxel_shape (obj s)) i row = Ok vs' ->
  read_axis vc i s
  = (Ok (<[i := Z.abs c]> vc),
     {| obj := with_voxel_shape vs'
                 (with_unit_conversion
                    (<[i := if c <? 0 then 1%float else BOHR_TO_ANGSTROM]>
                       (unit_conversion (obj s)))
                    (obj s));
        it := r |}).
Proof.
  intros H Hc Hi Hu Hrow Hset.
  unfold read_axis, bind, next, lift, modify, ret, get_self, setitem.
  rewrite H. cbn [it obj]. rewrite Hc.
  rewrite (proj2 (Nat.ltb_lt _ _) Hi).
  destruct (Z.ltb_spec c 0) as [Hneg|Hpos].
  - rewrite length_insert, (proj2 (Nat.ltb_lt _ _) Hi). cbn [it obj].
    rewrite (proj2 (Nat.ltb_lt _ _) Hu). cbn [it obj].
    rewrite Hrow. cbn [it obj voxel_shape with_unit_conversion].
    rewrite Hset. rewrite list_insert_insert_eq, Z.abs_neq by lia. reflexivity.
  - cbn [it obj]. rewrite (proj2 (Nat.ltb_lt _ _) Hu). cbn [it obj].
    rewrite Hrow. cbn [it obj voxel_shape with_unit_conversion].
    rewrite Hset. rewrite Z.abs_eq by lia. reflexivity.
Qed.

(** A row of one or three values stored into a row of three. *)
Lemma setrow_run a i old row :
  a !! i = Some old -> length old = 3%nat -> length (broadcast3 row) = 3%nat ->
  setrow a i row = Ok (<[i := broadcast3 row]> a).
Proof.
  intros Ha Lo Lr. unfold setrow. rewrite Ha, Lo.
  destruct row as [|x [|y [|z [|w row]]]]; try discriminate; reflexivity.
Qed.

Lemma check_square_run s :
  non_square (voxel_shape (obj s)) = Ok false -> check_square s = (Ok tt, s).
Proof.
  intros H. unfold check_square, bind, get_self, lift, ret. now rewrite H.
Qed.

Lemma setup_grid_run vc s o sc :
  np_multiply (origin (obj s)) (unit_conversion (obj s)) = Ok o ->
  np_alloc vc = None ->
  forallb (Z.leb 0) vc = true ->
  np_multiply (np_norm_rows (voxel_shape (obj s))) (unit_conversion (obj s)) = Ok sc ->
  setup_grid vc s
  = (Ok tt,
     {| obj := with_scale sc
                 (with_voxels
                    {| shape := vc;
                       data := replicate (Z.to_nat (product vc)) 0%float |}
                    (with_origin o (obj s)));
        it := it s |}).
Proof.
  intros Ho Ha Hpos Hsc.
  unfold setup_grid, bind, get_self, lift, modify, np_zeros.
  rewrite Ho. cbn [it obj]. rewrite Ha, Hpos. cbn [it obj voxel_shape
    unit_conversion with_voxels with_origin]. rewrite Hsc. reflexivity.
Qed.

Lemma read_atoms_run rounds : forall c rest new,
  (rounds <= length rest)%nat ->
  Forall2 (fun line atom => atom_of_line (unit_conversion c) line = Ok atom)
          (take rounds rest) new ->
  read_atoms rounds {| obj := c; it := rest |}
  = (Ok tt, {| obj := with_atoms (atoms c ++ new) c; it := drop rounds rest |}).
Proof.
  induction rounds as [|rounds IH]; intros c rest new Hle Hall.
  - cbn in Hall. inversion Hall; subst. cbn. rewrite app_nil_r.
    unfold ret. now destruct c.
  - destruct rest as [|line rest]; [cbn in Hle; lia|].
    cbn [take] in Hall. inversion Hall as [|? atom ? new' Ha Hall']; subst.
    cbn [read_atoms]. unfold bind at 1.
    unfold read_atom, bind, next, get_self, lift, modify. cbn [it obj].
    rewrite Ha. cbn [it obj].
    rewrite (IH _ rest new'); [|cbn in Hle; lia|exact Hall'].
    cbn [atoms with_atoms drop]. rewrite <- app_assoc. reflexivity.
Qed.

Lemma read_voxels_run vc s flat :
  np_asarray (py_split (join_empty (it s))) = Ok flat ->
  shape (voxels (obj s)) = vc ->
  Z.of_nat (length flat) = product vc ->
  read_voxels vc s
  = (Ok tt, {| obj := with_voxels {| shape := vc; data := flat |} (obj s); it := [] |}).
Proof.
  intros Hflat Hshape Hlen.
  unfold read_voxels, bind, join_rest, lift, get_self, modify, np_reshape, ret.
  cbn [it obj]. rewrite Hflat. cbn [it obj]. rewrite Hshape.
  rewrite (proj2 (Z.eqb_eq _ _) Hlen). cbn [it obj voxels with_voxels shape].
  rewrite bool_decide_eq_true_2 by reflexivity. reflexivity.
Qed.

End Forward.

Lemma np_multiply_broadcast3 a u0 u1 u2 :
  length (broadcast3 a) = 3%nat ->
  np_multiply a [u0; u1; u2] = Ok (zip_with PrimFloat.mul (broadcast3 a) [u0; u1; u2]).
Proof.
  destruct a as [|x [|y [|z [|w a]]]]; try discriminate; reflexivity.
Qed.

(** Sufficient conditions for [read_iterator] to succeed. *)
Lemma read_iterator_run `{RT : Runtime}
    (self : Cubefile) (l1 l2 l3 ax ay az : string) (rest : list string)
    (n nx ny nz : Z) (o0 rx ry rz : list float)
    (new : list Atom) (flat : list float) :
  let uc := [if nx <? 0 then 1%float else BOHR_TO_ANGSTROM;
             if ny <? 0 then 1%float else BOHR_TO_ANGSTROM;
             if nz <? 0 then 1%float else BOHR_TO_ANGSTROM] in
  let vs := [broadcast3 rx; broadcast3 ry; broadcast3 rz] in
  length (unit_conversion self) = 3%nat ->
  map length (voxel_shape self) = [3; 3; 3]%nat ->
  first_int (py_split l3) = Ok n ->
  map_result py_float (slice (py_split l3) 1 4) = Ok o0 ->
  length (broadcast3 o0) = 3%nat ->
  first_int (py_split ax) = Ok nx ->
  first_int (py_split ay) = Ok ny ->
  first_int (py_split az) = Ok nz ->
  np_asarray (slice (py_split ax) 1 4) = Ok rx ->
  np_asarray (slice (py_split ay) 1 4) = Ok ry ->
  np_asarray (slice (py_split az) 1 4) = Ok rz ->
  length (broadcast3 rx) = 3%nat ->
  length (broadcast3 ry) = 3%nat ->
  length (broadcast3 rz) = 3%nat ->
  non_square vs = Ok false ->
  np_alloc [Z.abs nx; Z.abs ny; Z.abs nz] = None ->
  (Z.to_nat n <= length rest)%nat ->
  Forall2 (fun line atom => atom_of_line uc line = Ok atom)
          (take (Z.to_nat n) rest) new ->
  np_asarray (py_split (join_empty (drop (Z.to_nat n) rest))) = Ok flat ->
  Z.of_nat (length flat) = Z.abs nx * Z.abs ny * Z.abs nz ->
  read_iterator self (l1 :: l2 :: l3 :: ax :: ay :: az :: rest)
  = (Ok tt,
     {| filename := filename self;
        header := l1 +:+ l2;
        origin := zip_with PrimFloat.mul (broadcast3 o0) uc;
        voxel_shape := vs;
        unit_conversion := uc;
        scale := zip_with PrimFloat.mul (np_norm_rows vs) uc;
        atoms := atoms self ++ new;
        voxels := {| shape := [Z.abs nx; Z.abs ny; Z.abs nz]; data := flat |} |}).
Proof.
  intros uc vs Luc Lvs Hn Ho Lo Hx Hy Hz Hrx Hry Hrz Lx Ly Lz Hsq Halloc Hle
         Hall Hflat Hsize.
  destruct self as [fn hd og shape0 uc0 sc0 at0 vx0]. cbn in Luc, Lvs.
  destruct uc0 as [|v0 [|v1 [|v2 [|v3 uc0]]]]; try discriminate.
  destruct shape0 as [|r0 [|r1 [|r2 [|r3 shape0]]]]; try discriminate.
  injection Lvs as L0 L1 L2.
  unfold read_iterator, read_body.
  erewrite bind_step; [|apply read_header_run; reflexivity].
  erewrite bind_step; [|eapply read_origin_run; [reflexivity|exact Hn|exact Ho]].
  cbn [read_axes seq].
  erewrite bind_step;
    [|erewrite bind_step;
        [|eapply read_axis_run;
            [reflexivity|exact Hx|cbn; lia|cbn; lia|exact Hrx
            |apply (setrow_run _ _ r0); [reflexivity|exact L0|exact Lx]]];
      cbn [list_insert insert];
      erewrite bind_step;
        [|eapply read_axis_run;
            [reflexivity|exact Hy|cbn; lia|cbn; lia|exact Hry
            |apply (setrow_run _ _ r1); [reflexivity|exact L1|exact Ly]]];
      cbn [list_insert insert];
      erewrite bind_step;
        [|eapply read_axis_run;
            [reflexivity|exact Hz|cbn; lia|cbn; lia|exact Hrz
            |apply (setrow_run _ _ r2); [reflexivity|exact L2|exact Lz]]];
      reflexivity].
  cbn [list_insert insert obj it voxel_shape unit_conversion with_voxel_shape
       with_unit_conversion with_origin with_header origin].
  erewrite bind_step; [|apply check_square_run; exact Hsq].
  erewrite bind_step;
    [|eapply setup_grid_run;
        [cbn [obj origin unit_conversion]; apply np_multiply_broadcast3; exact Lo
        |exact Halloc
        |cbn; rewrite !(proj2 (Z.leb_le _ _)) by lia; reflexivity
        |reflexivity]].
  cbn [obj it].
  erewrite bind_step; [|apply read_atoms_run; [exact Hle|exact Hall]].
  erewrite read_voxels_run;
    [reflexivity|exact Hflat|reflexivity|cbn [product foldr]; lia].
Qed.

(** X15. Sufficient conditions for a parse to succeed.  If the object's
    unit conversion has three entries and its voxel shape is 3 x 3, line 3
    gives an atom count and one or three origin values, each axis line
    gives a count and one or three step values that pass the test for
    non-square voxels, the grid can be allocated, the atom lines are
    present and well-formed, and the text obtained by joining the lines
    after them with the empty string splits into as many tokens as the grid
    has voxels, each of them a number, then [read_iterator] succeeds and
    leaves the record built from these values. *)
Theorem well_formed_stream_parses `{RT : Runtime}
    (self : Cubefile) (l1 l2 l3 ax ay az : string) (rest : list string)
    (n nx ny nz : Z) (o0 rx ry rz : list float)
    (new : list Atom) (flat : list float) :
  let uc := [if nx <? 0 then 1%float else BOHR_TO_ANGSTROM;
             if ny <? 0 then 1%float else BOHR_TO_ANGSTROM;
             if nz <? 0 then 1%float else BOHR_TO_ANGSTROM] in
  let vs := [broadcast3 rx; broadcast3 ry; broadcast3 rz] in
  length (unit_conversion self) = 3%nat ->
  map length (voxel_shape self) = [3; 3; 3]%nat ->
  first_int (py_split l3) = Ok n ->
  map_result py_float (slice (py_split l3) 1 4) = Ok o0 ->
  length (broadcast3 o0) = 3%nat ->
  first_int (py_split ax) = Ok nx ->
  first_int (py_split ay) = Ok ny ->
  first_int (py_split az) = Ok nz ->
  np_asarray (slice (py_split ax) 1 4) = Ok rx ->
  np_asarray (slice (py_split ay) 1 4) = Ok ry ->
  np_asarray (slice (py_split az) 1 4) = Ok rz ->
  length (broadcast3 rx) = 3%nat ->
  length (broadcast3 ry) = 3%nat ->
  length (broadcast3 rz) = 3%nat ->
  non_square vs = Ok false ->
  np_alloc [Z.abs nx; Z.abs ny; Z.abs nz] = None ->
  (Z.to_nat n <= length rest)%nat ->
  Forall2 (fun line atom => atom_of_line uc line = Ok atom)
          (take (Z.to_nat n) rest) new ->
  np_asarray (py_split (join_empty (drop (Z.to_nat n) rest))) = Ok flat ->
  Z.of_nat (length flat) = Z.abs nx * Z.abs ny * Z.abs nz ->
  read_iterator self (l1 :: l2 :: l3 :: ax :: ay :: az :: rest)
  = (Ok tt,
     {| filename := filename self;
        header := l1 +:+ l2;
        origin := zip_with PrimFloat.mul (broadcast3 o0) uc;
        voxel_shape := vs;
        unit_conversion := uc;
        scale := zip_with PrimFloat.mul (np_norm_rows vs) uc;
        atoms := atoms self ++ new;
        voxels := {| shape := [Z.abs nx; Z.abs ny; Z.abs nz]; data := flat |} |}).
Proof. apply read_iterator_run. Qed.


Lemma well_formed_stream_parses_witness :
  fst (read_iterator (RT := PyRef.runtime) Samples.carbon_record Samples.oxygen)
  = Ok tt.
Proof.
  pose proof (well_formed_stream_parses (RT := PyRef.runtime) Samples.carbon_record
             "oxygen" "density" "1 0.0 0.0 0.0"
             "1 1.0 0.0 0.0" "1 0.0 1.0 0.0" "2 0.0 0.0 1.0"
             ["8 0.0 0.5 0.5 0.5"; "0.25 0.75"]
             1 1 1 2 [0; 0; 0]%float [1; 0; 0]%float [0; 1; 0]%float [0; 0; 1]%float
             [{| element := 8; charge := 0;
                 xyz := [0.5 * BOHR_TO_ANGSTROM; 0.5 * BOHR_TO_ANGSTROM;
                         0.5 * BOHR_TO_ANGSTROM]%float |}]
             [0.25; 0.75]%float) as H.
  cbv zeta in H.
  unfold Samples.oxygen.
  rewrite H; [reflexivity| | | | | | | | | | | | | | | | | | | |].
  all: try (match goal with |- _ = _ => vm_compute; reflexivity end).
  - vm_compute. lia.
  - cbn [take Z.to_nat Pos.to_nat Pos.iter_op Nat.add].
    constructor; [vm_compute; reflexivity|constructor].
Defined.

(** The grid a successful parse allocates. *)
Lemma read_iterator_alloc `{RT : Runtime} self lines u self' :
  read_iterator self lines = (Ok u, self') ->
  np_alloc (voxel_count self') = None.
Proof.
  unfold read_iterator.
  destruct (read_body _) as [[[]|e] s] eqn:H; [|discriminate].
  intros [= <-]. unfold read_body in H. repeat invert_ok.
  repeat match goal with
    | H : read_atoms _ _ = (Ok _, _) |- _ => clear H
    | H : setup_grid ?vc _ = (Ok _, _) |- _ =>
        apply setup_grid_Ok in H as (_ & _ & _ & Halloc & _)
    | H : read_voxels _ _ = (Ok _, _) |- _ =>
        apply read_voxels_Ok in H as (flat & _ & _ & _ & Ho)
    end.
  subst self'. rewrite Ho. exact Halloc.
Qed.

(** X16. Whether a stream parses does not depend on what the object
    holds: two objects whose unit conversion has three entries and whose
    voxel shape is 3 x 3, as every constructed object has them, accept the
    same streams. *)
Theorem parse_outcome_independent_of_contents `{RT : Runtime}
    (self other : Cubefile) (lines : list string) :
  length (unit_conversion self) = 3%nat ->
  map length (voxel_shape self) = [3; 3; 3]%nat ->
  length (unit_conversion other) = 3%nat ->
  map length (voxel_shape other) = [3; 3; 3]%nat ->
  is_ok (fst (read_iterator self lines)) = is_ok (fst (read_iterator other lines)).
Proof.
  assert (forall s1 s2, length (unit_conversion s2) = 3%nat ->
            map length (voxel_shape s2) = [3; 3; 3]%nat ->
            is_ok (fst (read_iterator s1 lines)) = true ->
            is_ok (fst (read_iterator s2 lines)) = true) as Hmono.
  { intros s1 s2 Lu Lv H1.
    destruct (read_iterator s1 lines) as [[[]|e] s1'] eqn:H; [|discriminate].
    pose proof (read_iterator_alloc _ _ _ _ H) as Halloc.
    apply read_iterator_Ok_record in H
      as (l1 & l2 & l3 & ax & ay & az & rest & n & nx & ny & nz & rx & ry & rz
          & o0 & new & flat & -> & (Hn & Ho) & (Hx & Hy & Hz) & (Hrx & Hry & Hrz)
          & (Lx & Ly & Lz & Lo) & Hsq & (Hle & _ & Hall) & (Hflat & Hsize) & ->).
    cbn [unit_conversion] in Hall. unfold voxel_count in Halloc.
    cbn [voxels shape] in Halloc.
    now rewrite (read_iterator_run s2 l1 l2 l3 ax ay az rest n nx ny nz
                   o0 rx ry rz new flat). }
  intros Lu Lv Lu' Lv'.
  destruct (is_ok (fst (read_iterator self lines))) eqn:E1.
  - symmetry. now apply (Hmono self other).
  - destruct (is_ok (fst (read_iterator other lines))) eqn:E2; [|reflexivity].
    rewrite (Hmono other self) in E1; done.
Qed.

Lemma parse_outcome_independent_of_contents_witness :
  is_ok (fst (read_iterator (RT := PyRef.runtime) Samples.carbon_record
                Samples.sheared))
  = false.
Proof.
  rewrite (parse_outcome_independent_of_contents (RT := PyRef.runtime)
             Samples.carbon_record default_state Samples.sheared);
    vm_compute; reflexivity.
Defined.
